(** * The operation-lifecycle reconciler of the Atlas service broker

    A shallow embedding of the broker package (Provision, Update,
    Deprovision, LastOperation, NormalizeClusterName, clusterFromParams,
    clusterNameFromIDAndContext, findClusterByInstanceID) and of the part of
    package atlas it uses (pkg/atlas/cluster.go).

    Conventions.
    - A Go [string] is a sequence of bytes; [String.string] is a sequence of
      8-bit [ascii], so [String.length] is Go's [len] and [substring] is Go's
      slicing.  [[]byte] payloads are strings as well.
    - A Go pointer that may be nil is an [option]; reading or writing a
      field through nil is the run-time panic [Panic].
    - A Go function returning [(value, error)] returns a [Res]: [Ok v] for a
      nil error, [Err e] otherwise.
    - Requests to the cluster API are recorded, in order, in a log of
      [Call]s next to the result (type [M]).  Calls to the logger have no
      effect on results and are left out. *)

From Stdlib Require Import PrimFloat Ascii.
From stdpp Require Import base option list strings gmap.

Open Scope string_scope.
Open Scope list_scope.

(** ** Errors and results *)

(** Go errors.  The two sentinels of brokerapi/apiresponses are compared
    by identity in the source; every other error (JSON, context, catalog,
    Atlas API) is told apart from them and carries its message. *)
Inductive error : Type :=
  | ErrAsyncRequired
  | ErrInstanceDoesNotExist
  | ErrOther (msg : string).

Global Instance error_eq_dec : EqDecision error.
Proof. solve_decision. Defined.

Inductive Res (A : Type) : Type :=
  | Ok (a : A)
  | Err (e : error)
  | Panic.
Arguments Ok {A} a.
Arguments Err {A} e.
Arguments Panic {A}.

Global Instance Res_ret : MRet Res := fun A a => Ok a.
Global Instance Res_bind : MBind Res := fun A B f r =>
  match r with
  | Ok a => f a
  | Err e => Err e
  | Panic => Panic
  end.

(** [*p] for a pointer [p]. *)
Definition deref {A : Type} (p : option A) : Res A :=
  match p with
  | Some a => Ok a
  | None => Panic
  end.

(** ** Package atlas *)

Module atlas.

  (** All states a cluster can be in. *)
Definition ClusterStateIdle : string := "IDLE".
Definition ClusterStateCreating : string := "CREATING".
Definition ClusterStateUpdating : string := "UPDATING".
Definition ClusterStateDeleting : string := "DELETING".
Definition ClusterStateDeleted : string := "DELETED".
Definition ClusterStateRepairing : string := "REPAIRING".

Module AutoScalingConfig.
Record t : Type := mk { DiskEnabled : bool }.
Definition zero : t := mk false.
End AutoScalingConfig.

Module BIConnectorConfig.
Record t : Type := mk { Enabled : bool; ReadPreference : string }.
Definition zero : t := mk false "".
End BIConnectorConfig.

Module RegionsConfig.
Record t : Type := mk {
      ElectableNodes : Z;
      ReadOnlyNodes : Z;
      AnalyticsNodes : Z;
      Priority : Z }.
End RegionsConfig.

Module ReplicationSpec.
Record t : Type := mk {
      ID : string;
      NumShards : N;
      RegionsConfig : RegionsConfig.t;
      ZoneName : string }.
End ReplicationSpec.

  (** The provider settings of a cluster.  The broker names the first two
      fields by their JSON keys (providerName, instanceSizeName). *)
Module ProviderSettings.
Record t : Type := mk {
      ProviderName : string;
      InstanceSizeName : string;
      RegionName : string;
      DiskIOPS : N;
      DiskTypeName : string;
      EncryptEBSVolume : bool;
      VolumeType : string }.

    (** [atlas.ProviderSettings{}] *)
Definition zero : t := mk "" "" "" 0%N "" false "".

Definition setProviderName (v : string) (ps : t) : t :=
      mk v (InstanceSizeName ps) (RegionName ps) (DiskIOPS ps)
         (DiskTypeName ps) (EncryptEBSVolume ps) (VolumeType ps).

Definition setInstanceSizeName (v : string) (ps : t) : t :=
      mk (ProviderName ps) v (RegionName ps) (DiskIOPS ps)
         (DiskTypeName ps) (EncryptEBSVolume ps) (VolumeType ps).
End ProviderSettings.

  (** A single cluster in Atlas.  [ProviderSettings] is a pointer;
      [StateName] (JSON key stateName) and [URI] are read-only. *)
Module Cluster.
Record t : Type := mk {
      Name : string;
      AutoScaling : AutoScalingConfig.t;
      BackupEnabled : bool;
      BIConnector : BIConnectorConfig.t;
      Type_ : string;
      DiskSize : float;
      EncryptionAtRestProvider : string;
      MongoDBVersion : string;
      NumShards : N;
      ProviderBackupEnabled : bool;
      ReplicationFactor : N;
      ReplicationSpecs : list ReplicationSpec.t;
      ProviderSettings : option ProviderSettings.t;
      Labels : gmap string string;
      StateName : string;
      URI : string }.

    (** [atlas.Cluster{}] *)
Definition zero : t :=
      mk "" AutoScalingConfig.zero false BIConnectorConfig.zero "" 0%float
         "" "" 0%N false 0%N [] None ∅ "" "".

Definition setName (v : string) (c : t) : t :=
      mk v (AutoScaling c) (BackupEnabled c) (BIConnector c) (Type_ c)
         (DiskSize c) (EncryptionAtRestProvider c) (MongoDBVersion c)
         (NumShards c) (ProviderBackupEnabled c) (ReplicationFactor c)
         (ReplicationSpecs c) (ProviderSettings c) (Labels c) (StateName c)
         (URI c).

Definition setProviderSettings (v : option ProviderSettings.t) (c : t) : t :=
      mk (Name c) (AutoScaling c) (BackupEnabled c) (BIConnector c) (Type_ c)
         (DiskSize c) (EncryptionAtRestProvider c) (MongoDBVersion c)
         (NumShards c) (ProviderBackupEnabled c) (ReplicationFactor c)
         (ReplicationSpecs c) v (Labels c) (StateName c) (URI c).

Definition setLabels (v : gmap string string) (c : t) : t :=
      mk (Name c) (AutoScaling c) (BackupEnabled c) (BIConnector c) (Type_ c)
         (DiskSize c) (EncryptionAtRestProvider c) (MongoDBVersion c)
         (NumShards c) (ProviderBackupEnabled c) (ReplicationFactor c)
         (ReplicationSpecs c) (ProviderSettings c) v (StateName c) (URI c).

    (** Modelled from the spec: the label accessors of atlas.Cluster are
        declared outside the files at hand.  The spec describes the labels
        as a set of opaque key-value pairs on the cluster with a get and a
        set capability.  Here a key that is not set reads as Go's zero
        value, the empty string. *)
Definition GetLabel (c : t) (key : string) : string :=
      default "" (Labels c !! key).

Definition SetLabel (key value : string) (c : t) : t :=
      setLabels (<[key := value]> (Labels c)) c.
End Cluster.

  (** A catalog entry: a provider and its instance sizes.  Of these the
      broker reads the two names only. *)
Module InstanceSize.
Record t : Type := mk { Name : string }.
End InstanceSize.

Module Provider.
Record t : Type := mk { Name : string; InstanceSizes : list InstanceSize.t }.
End Provider.

  (** The requests of the cluster API that the broker issues. *)
Inductive Call : Type :=
    | ListClusters
    | CreateClusterCall (cluster : Cluster.t)
    | UpdateClusterCall (cluster : Cluster.t)
    | DeleteClusterCall (name : string).

  (** The interface [atlas.Client], as the answers of the remote side.  An
      operation of the broker calls each method at most once, so one
      answer per method and argument describes the remote side during the
      operation.  [CreateCluster] and [UpdateCluster] hand back a pointer
      that is never nil (cluster.go returns [&resultingCluster]). *)
Module Client.
Record t : Type := mk {
      GetClusters : Res (list Cluster.t);
      CreateCluster : Cluster.t -> Res Cluster.t;
      UpdateCluster : Cluster.t -> Res Cluster.t;
      DeleteCluster : string -> option error;
      GetDashboardURL : string -> string }.
End Client.

End atlas.

Import atlas.

(** ** Package brokerapi: the request and response records *)

Module brokerapi.

  (** [LastOperationState] is a string type with three constants. *)
Definition InProgress : string := "in progress".
Definition Succeeded : string := "succeeded".
Definition Failed : string := "failed".

Module ProvisionDetails.
Record t : Type := mk {
      ServiceID : string;
      PlanID : string;
      RawContext : string;
      RawParameters : string }.
End ProvisionDetails.

Module UpdateDetails.
Record t : Type := mk {
      ServiceID : string;
      PlanID : string;
      RawParameters : string;
      RawContext : string }.
End UpdateDetails.

Module DeprovisionDetails.
Record t : Type := mk { PlanID : string; ServiceID : string; Force : bool }.
End DeprovisionDetails.

Module PollDetails.
Record t : Type := mk {
      ServiceID : string;
      PlanID : string;
      OperationData : string }.
End PollDetails.

Module ProvisionedServiceSpec.
Record t : Type := mk {
      IsAsync : bool;
      DashboardURL : string;
      OperationData : string }.
End ProvisionedServiceSpec.

Module UpdateServiceSpec.
Record t : Type := mk {
      IsAsync : bool;
      DashboardURL : string;
      OperationData : string }.
End UpdateServiceSpec.

Module DeprovisionServiceSpec.
Record t : Type := mk { IsAsync : bool; OperationData : string }.
End DeprovisionServiceSpec.

Module LastOperation.
Record t : Type := mk { State : string; Description : string }.
End LastOperation.

End brokerapi.

(** ** The log of requests *)

Definition M (A : Type) : Type := (Res A * list Call)%type.

Global Instance M_ret : MRet M := fun A a => (Ok a, []).
Global Instance M_bind : MBind M := fun A B f m =>
  match m with
  | (Ok a, log) => let '(r, log') := f a in (r, log ++ log')
  | (Err e, log) => (Err e, log)
  | (Panic, log) => (Panic, log)
  end.

(** A step that issues no request. *)
Definition lift {A : Type} (r : Res A) : M A := (r, []).

(** A request [c] answered by [r]. *)
Definition call {A : Type} (c : Call) (r : Res A) : M A := (r, [c]).

Definition result {A : Type} (m : M A) : Res A := fst m.
Definition calls {A : Type} (m : M A) : list Call := snd m.

(** [err = f(err)] on the failing path. *)
Definition mapErr {A : Type} (f : error -> error) (r : Res A) : Res A :=
  match r with
  | Err e => Err (f e)
  | _ => r
  end.

(** ** Package broker *)

(** The different async operations that can be performed. *)
Definition OperationProvision : string := "provision".
Definition OperationDeprovision : string := "deprovision".
Definition OperationUpdate : string := "update".

(** The label key under which the instance ID will be saved. *)
Definition InstanceIDLabel : string := "aosb-instance-id".

(** The targets of the two [json.Unmarshal] calls. *)
Module Params.
Record t : Type := mk { Cluster : option Cluster.t }.
End Params.

Module ContextParams.
Record t : Type := mk { InstanceName : string }.
End ContextParams.

(** What the broker calls and the files at hand do not define: the helpers
    [atlasClientFromContext], [atlasToAPIError], [findProviderByServiceID]
    and [findInstanceSizeByPlanID] of the package, and [json.Unmarshal] of
    the Go library at the two target types.  They are taken as they are
    called: every theorem holds for each choice of them. *)
Class Collaborators : Type := {
  RequestContext : Type;
  atlasClientFromContext : RequestContext -> Res Client.t;
  atlasToAPIError : error -> error;
  findProviderByServiceID : Client.t -> string -> Res Provider.t;
  findInstanceSizeByPlanID : Provider.t -> string -> Res InstanceSize.t;
  unmarshalParams : string -> Params.t -> Res Params.t;
  unmarshalContext : string -> ContextParams.t -> Res ContextParams.t }.

Definition maximumNameLength : nat := 23.

(** NormalizeClusterName will sanitize a name to make sure it will be
    accepted by the Atlas API. *)
Definition NormalizeClusterName (name : string) : string :=
  if (maximumNameLength <? String.length name)%nat
  then String.substring 0 maximumNameLength name
  else name.

Section Broker.

Context `{Collab : Collaborators}.

(** The first step of clusterFromParams: the params object, set up with
    an empty cluster, into which the raw parameters are unmarshalled if
    there are any. *)
Definition parseParams (rawParams : string) : Res Params.t :=
  let params := Params.mk (Some Cluster.zero) in
  if (0 <? String.length rawParams)%nat
  then unmarshalParams rawParams params
  else Ok params.

(** clusterFromParams will construct a cluster object from an instance ID,
    service, plan, and raw parameters.  The result is a pointer. *)
Definition clusterFromParams (client : Client.t)
    (instanceID serviceID planID rawParams : string) : Res (option Cluster.t) :=
  params ← parseParams rawParams;
  if bool_decide (planID ≠ "") then
    provider ← findProviderByServiceID client serviceID;
    instanceSize ← findInstanceSizeByPlanID provider planID;
    cluster ← deref (Params.Cluster params);
    let settings :=
      match Cluster.ProviderSettings cluster with
      | None => ProviderSettings.zero
      | Some settings => settings
      end in
    let settings := ProviderSettings.setProviderName (Provider.Name provider) settings in
    let settings :=
      ProviderSettings.setInstanceSizeName (InstanceSize.Name instanceSize) settings in
    Ok (Some (Cluster.setProviderSettings (Some settings) cluster))
  else Ok (Params.Cluster params).

(** clusterNameFromIDAndContext will return the display name if
    instance_name is set in the context, otherwise it will return a
    normalized instance ID. *)
Definition clusterNameFromIDAndContext (instanceID rawContext : string) : Res string :=
  let context := ContextParams.mk "" in
  context ← (if (0 <? String.length rawContext)%nat
             then unmarshalContext rawContext context
             else Ok context);
  if bool_decide (ContextParams.InstanceName context ≠ "")
  then Ok (ContextParams.InstanceName context)
  else Ok (NormalizeClusterName instanceID).

(** The test of the loop body of findClusterByInstanceID. *)
Definition matchesInstance (instanceID : string) (cluster : Cluster.t) : bool :=
  let matchesName := bool_decide (Cluster.Name cluster = NormalizeClusterName instanceID) in
  let matchesLabel := bool_decide (Cluster.GetLabel cluster InstanceIDLabel = instanceID) in
  matchesName || matchesLabel.

(** The loop of findClusterByInstanceID, which returns from inside the
    loop at the first match. *)
Fixpoint scanClusters (instanceID : string) (clusters : list Cluster.t) : Res Cluster.t :=
  match clusters with
  | [] => Err ErrInstanceDoesNotExist
  | cluster :: rest =>
      if matchesInstance instanceID cluster
      then Ok cluster
      else scanClusters instanceID rest
  end.

(** findClusterByInstanceID will find a cluster matching the instance ID
    either by label or name.  On both failing paths the Go function hands
    back [atlas.Cluster{}] next to the error; see [clusterOf]. *)
Definition findClusterByInstanceID (client : Client.t) (instanceID : string) : M Cluster.t :=
  clusters ← call ListClusters (Client.GetClusters client);
  lift (scanClusters instanceID clusters).

(** The cluster value that findClusterByInstanceID returns: the match, or
    [atlas.Cluster{}] next to an error. *)
Definition clusterOf (r : Res Cluster.t) : Cluster.t :=
  match r with
  | Ok cluster => cluster
  | _ => Cluster.zero
  end.

(** Provision will create a new Atlas cluster with the instance ID as its
    name. *)
Definition Provision (ctx : RequestContext) (instanceID : string)
    (details : brokerapi.ProvisionDetails.t) (asyncAllowed : bool)
    : M brokerapi.ProvisionedServiceSpec.t :=
  client ← lift (atlasClientFromContext ctx);
  if negb asyncAllowed then lift (Err ErrAsyncRequired) else
  cluster ← lift (clusterFromParams client instanceID
                    (brokerapi.ProvisionDetails.ServiceID details)
                    (brokerapi.ProvisionDetails.PlanID details)
                    (brokerapi.ProvisionDetails.RawParameters details));
  clusterName ← lift (clusterNameFromIDAndContext instanceID
                        (brokerapi.ProvisionDetails.RawContext details));
  cluster ← lift (deref cluster);
  let cluster := Cluster.setName clusterName cluster in
  let cluster := Cluster.SetLabel InstanceIDLabel instanceID cluster in
  resultingCluster ← call (CreateClusterCall cluster)
                       (mapErr atlasToAPIError (Client.CreateCluster client cluster));
  mret (brokerapi.ProvisionedServiceSpec.mk true
          (Client.GetDashboardURL client (Cluster.Name resultingCluster))
          OperationProvision).

(** The backfill of Update: the provider name and the instance size of the
    new cluster are taken from the existing cluster where they are empty.
    [existingCluster.ProviderSettings] is read only then. *)
Definition backfillProvider (existingCluster cluster : Cluster.t) : Res Cluster.t :=
  match Cluster.ProviderSettings cluster with
  | None => Ok cluster
  | Some settings =>
      settings ← (if bool_decide (ProviderSettings.ProviderName settings = "")
                  then existing ← deref (Cluster.ProviderSettings existingCluster);
                       Ok (ProviderSettings.setProviderName
                             (ProviderSettings.ProviderName existing) settings)
                  else Ok settings);
      settings ← (if bool_decide (ProviderSettings.InstanceSizeName settings = "")
                  then existing ← deref (Cluster.ProviderSettings existingCluster);
                       Ok (ProviderSettings.setInstanceSizeName
                             (ProviderSettings.InstanceSizeName existing) settings)
                  else Ok settings);
      Ok (Cluster.setProviderSettings (Some settings) cluster)
  end.

(** Update will change the configuration of an existing Atlas cluster
    asynchronously. *)
Definition Update (ctx : RequestContext) (instanceID : string)
    (details : brokerapi.UpdateDetails.t) (asyncAllowed : bool)
    : M brokerapi.UpdateServiceSpec.t :=
  client ← lift (atlasClientFromContext ctx);
  if negb asyncAllowed then lift (Err ErrAsyncRequired) else
  existingCluster ← findClusterByInstanceID client instanceID;
  cluster ← lift (clusterFromParams client instanceID
                    (brokerapi.UpdateDetails.ServiceID details)
                    (brokerapi.UpdateDetails.PlanID details)
                    (brokerapi.UpdateDetails.RawParameters details));
  cluster ← lift (deref cluster);
  let cluster := Cluster.setName (Cluster.Name existingCluster) cluster in
  cluster ← lift (backfillProvider existingCluster cluster);
  resultingCluster ← call (UpdateClusterCall cluster)
                       (mapErr atlasToAPIError (Client.UpdateCluster client cluster));
  mret (brokerapi.UpdateServiceSpec.mk true
          (Client.GetDashboardURL client (Cluster.Name resultingCluster))
          OperationUpdate).

(** Deprovision will destroy an Atlas cluster asynchronously. *)
Definition Deprovision (ctx : RequestContext) (instanceID : string)
    (details : brokerapi.DeprovisionDetails.t) (asyncAllowed : bool)
    : M brokerapi.DeprovisionServiceSpec.t :=
  client ← lift (atlasClientFromContext ctx);
  if negb asyncAllowed then lift (Err ErrAsyncRequired) else
  cluster ← findClusterByInstanceID client instanceID;
  _ ← call (DeleteClusterCall (Cluster.Name cluster))
        (match Client.DeleteCluster client (Cluster.Name cluster) with
         | Some err => Err (atlasToAPIError err)
         | None => Ok tt
         end);
  mret (brokerapi.DeprovisionServiceSpec.mk true OperationDeprovision).

(** The two switches of LastOperation over the operation and the state of
    the cluster; [err] is the error of the lookup, nil or
    [ErrInstanceDoesNotExist] at this point. *)
Definition operationState (operationData : string) (cluster : Cluster.t)
    (err : option error) : string :=
  let state := brokerapi.Failed in
  if bool_decide (operationData = OperationProvision) then
    if bool_decide (Cluster.StateName cluster = ClusterStateIdle)
    then brokerapi.Succeeded
    else if bool_decide (Cluster.StateName cluster = ClusterStateCreating)
    then brokerapi.InProgress
    else state
  else if bool_decide (operationData = OperationDeprovision) then
    if bool_decide (err = Some ErrInstanceDoesNotExist)
       || bool_decide (Cluster.StateName cluster = ClusterStateDeleted)
    then brokerapi.Succeeded
    else if bool_decide (Cluster.StateName cluster = ClusterStateDeleting)
    then brokerapi.InProgress
    else state
  else if bool_decide (operationData = OperationUpdate) then
    if bool_decide (Cluster.StateName cluster = ClusterStateIdle)
    then brokerapi.Succeeded
    else if bool_decide (Cluster.StateName cluster = ClusterStateUpdating)
    then brokerapi.InProgress
    else state
  else state.

(** The lookup of LastOperation: an error other than
    [ErrInstanceDoesNotExist] is returned; otherwise the cluster and the
    error (nil or [ErrInstanceDoesNotExist]) go on. *)
Definition lookupForPoll (client : Client.t) (instanceID : string)
    : M (Cluster.t * option error) :=
  let '(found, log) := findClusterByInstanceID client instanceID in
  (match found with
   | Ok cluster => Ok (cluster, None)
   | Err err =>
       if bool_decide (err ≠ ErrInstanceDoesNotExist)
       then Err err
       else Ok (clusterOf found, Some err)
   | Panic => Panic
   end, log).

(** LastOperation should fetch the state of the provision/deprovision of a
    cluster. *)
Definition LastOperation (ctx : RequestContext) (instanceID : string)
    (details : brokerapi.PollDetails.t) : M brokerapi.LastOperation.t :=
  client ← lift (atlasClientFromContext ctx);
  '(cluster, err) ← lookupForPoll client instanceID;
  let state := operationState (brokerapi.PollDetails.OperationData details) cluster err in
  mret (brokerapi.LastOperation.mk state "").

End Broker.

(** ** A concrete broker

    A client, a catalog and a decoder to run the operations on.  The
    decoder knows the JSON documents that are used below and rejects every
    other payload. *)

(** The quotation mark of JSON. *)
Definition dquote : string := String "034"%char "".

Definition quoted (s : string) : string := dquote +:+ s +:+ dquote.

(** The payload [{"cluster": null}], between the braces: a quoted key, a
    colon, a space and the literal null. *)
Definition nullClusterParams : string :=
  Eval vm_compute in "{" +:+ quoted "cluster" +:+ ": null}".

Module Example.

(** [{"cluster":{"providerSettings":{"regionName":"US_EAST_1"}}}] *)
Definition regionParams : string :=
  Eval vm_compute in
    "{" +:+ quoted "cluster" +:+ ":{" +:+ quoted "providerSettings" +:+ ":{"
        +:+ quoted "regionName" +:+ ":" +:+ quoted "US_EAST_1" +:+ "}}}".

(** [{"cluster":{"providerSettings":{"providerName":"GCP","instanceSizeName":"M30"}}}] *)
Definition providerParams : string :=
  Eval vm_compute in
    "{" +:+ quoted "cluster" +:+ ":{" +:+ quoted "providerSettings" +:+ ":{"
        +:+ quoted "providerName" +:+ ":" +:+ quoted "GCP" +:+ ","
        +:+ quoted "instanceSizeName" +:+ ":" +:+ quoted "M30" +:+ "}}}".

Definition withSettings (settings : ProviderSettings.t) : Params.t :=
  Params.mk (Some (Cluster.setProviderSettings (Some settings) Cluster.zero)).

Definition unmarshal (rawParams : string) (params : Params.t) : Res Params.t :=
  if bool_decide (rawParams = "{}") then Ok params
  else if bool_decide (rawParams = nullClusterParams) then Ok (Params.mk None)
  else if bool_decide (rawParams = regionParams) then
    Ok (withSettings (ProviderSettings.mk "" "" "US_EAST_1" 0 "" false ""))
  else if bool_decide (rawParams = providerParams) then
    Ok (withSettings (ProviderSettings.mk "GCP" "M30" "" 0 "" false ""))
  else Err (ErrOther "invalid character looking for beginning of value").

Definition unmarshalInstanceName (rawContext : string) (context : ContextParams.t)
    : Res ContextParams.t :=
  if bool_decide (rawContext = "{}") then Ok context
  else Err (ErrOther "invalid character looking for beginning of value").

Definition aws : Provider.t :=
  Provider.mk "AWS" [InstanceSize.mk "M10"; InstanceSize.mk "M20"].

Definition findProvider (client : Client.t) (serviceID : string) : Res Provider.t :=
  if bool_decide (serviceID = "aosb-cluster-service-aws") then Ok aws
  else Err (ErrOther "invalid service ID").

Definition findInstanceSize (provider : Provider.t) (planID : string) : Res InstanceSize.t :=
  match List.find (fun size => bool_decide (InstanceSize.Name size = planID))
                  (Provider.InstanceSizes provider) with
  | Some size => Ok size
  | None => Err (ErrOther "invalid plan ID")
  end.

(** A request context holds a client or none. *)
Definition clientFromContext (ctx : option Client.t) : Res Client.t :=
  match ctx with
  | Some client => Ok client
  | None => Err (ErrOther "no Atlas client in context")
  end.

Definition collaborators : Collaborators := {|
  RequestContext := option Client.t;
  atlasClientFromContext := clientFromContext;
  atlasToAPIError := fun err => err;
  findProviderByServiceID := findProvider;
  findInstanceSizeByPlanID := findInstanceSize;
  unmarshalParams := unmarshal;
  unmarshalContext := unmarshalInstanceName |}.

(** A remote side that lists [clusters] and accepts every request. *)
Definition remote (clusters : list Cluster.t) : Client.t :=
  Client.mk (Ok clusters) (fun cluster => Ok cluster) (fun cluster => Ok cluster)
            (fun _ => None) (fun name => "https://cloud.mongodb.com/" +:+ name).

(** A remote side that cannot be reached. *)
Definition unreachable : Client.t :=
  Client.mk (Err (ErrOther "connection refused"))
            (fun _ => Err (ErrOther "connection refused"))
            (fun _ => Err (ErrOther "connection refused"))
            (fun _ => Some (ErrOther "connection refused"))
            (fun name => "https://cloud.mongodb.com/" +:+ name).

Definition instanceID : string := "2a5d9a9e-0c3b-4d2e-9f6a-7b1c8e4f5a60".

(** The cluster that Provision creates for [instanceID], as the remote
    side lists it in state [stateName]. *)
Definition provisioned (settings : option ProviderSettings.t) (stateName : string)
    : Cluster.t :=
  Cluster.mk "2a5d9a9e-0c3b-4d2e-9f6a" AutoScalingConfig.zero false
    BIConnectorConfig.zero "" 0%float "" "" 0 false 0 [] settings
    {[ InstanceIDLabel := instanceID ]} stateName "".

(** A cluster with a display name, found by its label only. *)
Definition named (name : string) : Cluster.t :=
  Cluster.setName name
    (provisioned (Some (ProviderSettings.mk "AWS" "M10" "EU_WEST_1" 0 "" false ""))
                 "IDLE").

(** A cluster of another instance. *)
Definition other : Cluster.t :=
  Cluster.mk "7f3c1d52-88aa-4b61-b0c4" AutoScalingConfig.zero false
    BIConnectorConfig.zero "" 0%float "" "" 0 false 0 [] None
    {[ InstanceIDLabel := "7f3c1d52-88aa-4b61-b0c4-5d9e2f1a3b77" ]} "IDLE" "".

End Example.

(** A broker whose context decoder also knows a context with a display
    name, longer than a normalized name. *)
Module Display.

Definition displayName : string := "orders-database-of-the-eu-west-shop".

(** [{"instance_name":"orders-database-of-the-eu-west-shop"}] *)
Definition namedContext : string :=
  Eval vm_compute in
    "{" +:+ quoted "instance_name" +:+ ":" +:+ quoted displayName +:+ "}".

Definition unmarshalInstanceName (rawContext : string) (context : ContextParams.t)
    : Res ContextParams.t :=
  if bool_decide (rawContext = "{}") then Ok context
  else if bool_decide (rawContext = namedContext)
  then Ok (ContextParams.mk displayName)
  else Err (ErrOther "invalid character looking for beginning of value").

Definition collaborators : Collaborators := {|
  RequestContext := option Client.t;
  atlasClientFromContext := Example.clientFromContext;
  atlasToAPIError := fun err => ErrOther "Atlas API error";
  findProviderByServiceID := Example.findProvider;
  findInstanceSizeByPlanID := Example.findInstanceSize;
  unmarshalParams := Example.unmarshal;
  unmarshalContext := unmarshalInstanceName |}.

(** A remote side that lists [clusters] and rejects every change. *)
Definition readOnly (clusters : list Cluster.t) : Client.t :=
  Client.mk (Ok clusters)
            (fun _ => Err (ErrOther "403 Forbidden"))
            (fun _ => Err (ErrOther "403 Forbidden"))
            (fun _ => Some (ErrOther "403 Forbidden"))
            (fun name => "https://cloud.mongodb.com/" +:+ name).

End Display.

(** ** Vocabulary of the specification *)

(** A cluster matches an instance ID when its name is the normalized
    instance ID or its identity label is the instance ID. *)
Definition Matches (instanceID : string) (cluster : Cluster.t) : Prop :=
  Cluster.Name cluster = NormalizeClusterName instanceID
  \/ Cluster.GetLabel cluster InstanceIDLabel = instanceID.

(** * Properties *)

(** ** Strings as lists of bytes *)

Lemma length_list_ascii (s : string) :
  length (String.list_ascii_of_string s) = String.length s.
Proof. induction s as [|a s IH]; simpl; congruence. Qed.

Lemma substring_take (n : nat) (s : string) :
  String.list_ascii_of_string (String.substring 0 n s) = take n (String.list_ascii_of_string s).
Proof.
  revert n. induction s as [|a s IH]; intros [|n]; simpl; try reflexivity.
  now rewrite IH.
Qed.

Lemma list_ascii_inj (s t : string) :
  String.list_ascii_of_string s = String.list_ascii_of_string t -> s = t.
Proof.
  intros E. rewrite <- (String.string_of_list_ascii_of_string s), E.
  apply String.string_of_list_ascii_of_string.
Qed.

Lemma list_ascii_app (s t : string) :
  String.list_ascii_of_string (s +:+ t) = String.list_ascii_of_string s ++ String.list_ascii_of_string t.
Proof.
  induction s as [|a s IH]; simpl; [reflexivity|].
  now rewrite IH.
Qed.

(** ** NormalizeClusterName *)

(** In either branch the result is the prefix of at most 23 bytes. *)
Lemma NormalizeClusterName_take (name : string) :
  String.list_ascii_of_string (NormalizeClusterName name)
  = take maximumNameLength (String.list_ascii_of_string name).
Proof.
  unfold NormalizeClusterName.
  destruct (Nat.ltb_spec maximumNameLength (String.length name)) as [Hlt|Hle].
  - apply substring_take.
  - rewrite take_ge; [reflexivity|]. rewrite length_list_ascii. exact Hle.
Qed.

Lemma NormalizeClusterName_length (name : string) :
  String.length (NormalizeClusterName name)
  = Nat.min maximumNameLength (String.length name).
Proof.
  rewrite <- !length_list_ascii, NormalizeClusterName_take.
  apply length_take.
Qed.

Lemma NormalizeClusterName_short (name : string) :
  String.length name <= maximumNameLength -> NormalizeClusterName name = name.
Proof.
  intros Hle. unfold NormalizeClusterName.
  destruct (Nat.ltb_spec maximumNameLength (String.length name)); [lia|reflexivity].
Qed.

(** C5. Normalizing a cluster name twice is normalizing it once; a name of
    at most 23 bytes is returned as it is; a longer name is cut down to its
    first 23 bytes: the result has length 23, its bytes are the first 23 of
    the name, and the name is the result followed by the bytes cut off.
    Every name has a result: nothing is rejected. *)
Theorem NormalizeClusterName_spec (s : string) :
  NormalizeClusterName (NormalizeClusterName s) = NormalizeClusterName s
  /\ (String.length s <= 23 -> NormalizeClusterName s = s)
  /\ (23 < String.length s ->
        String.length (NormalizeClusterName s) = 23
        /\ String.list_ascii_of_string (NormalizeClusterName s)
           = take 23 (String.list_ascii_of_string s)
        /\ exists rest, s = NormalizeClusterName s +:+ rest).
Proof.
  split; [|split].
  - apply NormalizeClusterName_short.
    rewrite NormalizeClusterName_length. apply Nat.le_min_l.
  - apply NormalizeClusterName_short.
  - intros Hlt. split; [|split].
    + rewrite NormalizeClusterName_length. unfold maximumNameLength. lia.
    + apply NormalizeClusterName_take.
    + exists (String.string_of_list_ascii (drop 23 (String.list_ascii_of_string s))).
      apply list_ascii_inj.
      rewrite list_ascii_app, NormalizeClusterName_take,
        String.list_ascii_of_string_of_list_ascii.
      symmetry. apply take_drop.
Qed.

Lemma NormalizeClusterName_spec_witness :
  (String.length "ab" <= 23 /\ NormalizeClusterName "ab" = "ab")
  /\ (23 < String.length Example.instanceID
      /\ String.length (NormalizeClusterName Example.instanceID) = 23
      /\ NormalizeClusterName Example.instanceID = "2a5d9a9e-0c3b-4d2e-9f6a").
Proof.
  split.
  - split; [vm_compute; lia|].
    apply (proj1 (proj2 (NormalizeClusterName_spec "ab"))). vm_compute. lia.
  - assert (H : 23 < String.length Example.instanceID) by (vm_compute; lia).
    split; [exact H|].
    split; [|reflexivity].
    exact (proj1 (proj2 (proj2 (NormalizeClusterName_spec Example.instanceID)) H)).
Defined.

(** ** The operations *)

Section Properties.

Context `{Collab : Collaborators}.

(** *** The instance locator *)

Lemma matchesInstance_Matches (instanceID : string) (cluster : Cluster.t) :
  matchesInstance instanceID cluster = true <-> Matches instanceID cluster.
Proof.
  unfold matchesInstance, Matches.
  rewrite orb_true_iff, !bool_decide_eq_true. reflexivity.
Qed.

Lemma scanClusters_first (instanceID : string) (before after : list Cluster.t)
    (cluster : Cluster.t) :
  Forall (fun c => ~ Matches instanceID c) before ->
  Matches instanceID cluster ->
  scanClusters instanceID (before ++ cluster :: after) = Ok cluster.
Proof.
  intros Hbefore Hmatch.
  induction Hbefore as [|c before Hc _ IH]; simpl.
  - apply matchesInstance_Matches in Hmatch. now rewrite Hmatch.
  - destruct (matchesInstance instanceID c) eqn:E; [|exact IH].
    apply matchesInstance_Matches in E. contradiction.
Qed.

Lemma scanClusters_Ok (instanceID : string) (clusters : list Cluster.t)
    (cluster : Cluster.t) :
  scanClusters instanceID clusters = Ok cluster ->
  exists before after,
    clusters = before ++ cluster :: after
    /\ Forall (fun c => ~ Matches instanceID c) before
    /\ Matches instanceID cluster.
Proof.
  induction clusters as [|c rest IH]; simpl; [discriminate|].
  destruct (matchesInstance instanceID c) eqn:E.
  - intros [= <-]. exists [], rest.
    split; [reflexivity|]. split; [constructor|].
    now apply matchesInstance_Matches.
  - intros Hrest. destruct (IH Hrest) as (before & after & -> & Hbefore & Hmatch).
    exists (c :: before), after.
    split; [reflexivity|]. split; [|exact Hmatch].
    constructor; [|exact Hbefore].
    intros Hc. apply matchesInstance_Matches in Hc. congruence.
Qed.

Lemma scanClusters_none (instanceID : string) (clusters : list Cluster.t) :
  scanClusters instanceID clusters = Err ErrInstanceDoesNotExist
  <-> Forall (fun c => ~ Matches instanceID c) clusters.
Proof.
  induction clusters as [|c rest IH]; simpl.
  - split; [constructor|reflexivity].
  - destruct (matchesInstance instanceID c) eqn:E.
    + split; [discriminate|].
      intros Hall. apply Forall_cons in Hall as [Hc _].
      apply matchesInstance_Matches in E. contradiction.
    + rewrite IH. split.
      * intros Hrest. constructor; [|exact Hrest].
        intros Hc. apply matchesInstance_Matches in Hc. congruence.
      * intros Hall. now apply Forall_cons in Hall as [_ Hrest].
Qed.

(** The scan ends in a cluster or in [ErrInstanceDoesNotExist]. *)
Lemma scanClusters_total (instanceID : string) (clusters : list Cluster.t) :
  (exists cluster, scanClusters instanceID clusters = Ok cluster)
  \/ scanClusters instanceID clusters = Err ErrInstanceDoesNotExist.
Proof.
  induction clusters as [|c rest IH]; simpl; [now right|].
  destruct (matchesInstance instanceID c); [left; eauto|exact IH].
Qed.

Lemma findClusterByInstanceID_eq (client : Client.t) (instanceID : string) :
  findClusterByInstanceID client instanceID
  = (clusters ← Client.GetClusters client; scanClusters instanceID clusters,
     [ListClusters]).
Proof.
  unfold findClusterByInstanceID, call, lift.
  destruct (Client.GetClusters client); reflexivity.
Qed.

(** C2. When the remote side lists [clusters], the locator issues that one
    request and returns the first cluster of the list, in list order, whose
    name is the normalized instance ID or whose identity label is the
    instance ID; it fails with ErrInstanceDoesNotExist exactly when no
    cluster of the list matches; and a first match by label is returned
    whatever its name. *)
Theorem findClusterByInstanceID_spec (client : Client.t) (instanceID : string)
    (clusters : list Cluster.t) :
  Client.GetClusters client = Ok clusters ->
  calls (findClusterByInstanceID client instanceID) = [ListClusters]
  /\ (forall cluster,
        result (findClusterByInstanceID client instanceID) = Ok cluster
        <-> exists before after,
              clusters = before ++ cluster :: after
              /\ Forall (fun c => ~ Matches instanceID c) before
              /\ Matches instanceID cluster)
  /\ (result (findClusterByInstanceID client instanceID) = Err ErrInstanceDoesNotExist
      <-> Forall (fun c => Cluster.Name c <> NormalizeClusterName instanceID
                           /\ Cluster.GetLabel c InstanceIDLabel <> instanceID)
                 clusters)
  /\ (forall before cluster after,
        clusters = before ++ cluster :: after ->
        Forall (fun c => ~ Matches instanceID c) before ->
        Cluster.GetLabel cluster InstanceIDLabel = instanceID ->
        result (findClusterByInstanceID client instanceID) = Ok cluster)
  /\ ((exists cluster, result (findClusterByInstanceID client instanceID) = Ok cluster)
      \/ result (findClusterByInstanceID client instanceID) = Err ErrInstanceDoesNotExist).
Proof.
  intros Hlist. rewrite findClusterByInstanceID_eq, Hlist.
  unfold calls, result. simpl.
  split; [reflexivity|]. split; [|split; [|split]].
  - intros cluster. split.
    + apply scanClusters_Ok.
    + intros (before & after & -> & Hbefore & Hmatch).
      now apply scanClusters_first.
  - rewrite scanClusters_none. apply Forall_iff. intros c.
    unfold Matches. tauto.
  - intros before cluster after -> Hbefore Hlabel.
    apply scanClusters_first; [exact Hbefore|]. now right.
  - apply scanClusters_total.
Qed.

(** *** The operation state machine *)

Lemma LastOperation_eq (ctx : RequestContext) (instanceID : string)
    (details : brokerapi.PollDetails.t) (client : Client.t) :
  atlasClientFromContext ctx = Ok client ->
  LastOperation ctx instanceID details
  = (match result (findClusterByInstanceID client instanceID) with
     | Ok cluster =>
         Ok (brokerapi.LastOperation.mk
               (operationState (brokerapi.PollDetails.OperationData details)
                  cluster None) "")
     | Err err =>
         if bool_decide (err = ErrInstanceDoesNotExist)
         then Ok (brokerapi.LastOperation.mk
                    (operationState (brokerapi.PollDetails.OperationData details)
                       Cluster.zero (Some ErrInstanceDoesNotExist)) "")
         else Err err
     | Panic => Panic
     end, calls (findClusterByInstanceID client instanceID)).
Proof.
  intros Hclient. unfold LastOperation, lookupForPoll, result, calls.
  rewrite Hclient. simpl.
  destruct (findClusterByInstanceID client instanceID) as [[cluster|e|] log];
    simpl.
  - now rewrite app_nil_r.
  - destruct (decide (e = ErrInstanceDoesNotExist)) as [->|Hne].
    + simpl. now rewrite app_nil_r.
    + rewrite (bool_decide_eq_true_2 _ Hne), (bool_decide_eq_false_2 _ Hne).
      reflexivity.
  - reflexivity.
Qed.

Lemma LastOperation_result (ctx : RequestContext) (instanceID : string)
    (details : brokerapi.PollDetails.t) (client : Client.t) :
  atlasClientFromContext ctx = Ok client ->
  result (LastOperation ctx instanceID details)
  = match result (findClusterByInstanceID client instanceID) with
    | Ok cluster =>
        Ok (brokerapi.LastOperation.mk
              (operationState (brokerapi.PollDetails.OperationData details)
                 cluster None) "")
    | Err err =>
        if bool_decide (err = ErrInstanceDoesNotExist)
        then Ok (brokerapi.LastOperation.mk
                   (operationState (brokerapi.PollDetails.OperationData details)
                      Cluster.zero (Some ErrInstanceDoesNotExist)) "")
        else Err err
    | Panic => Panic
    end.
Proof. intros Hclient. now rewrite (LastOperation_eq _ _ _ _ Hclient). Qed.

Lemma LastOperation_no_client (ctx : RequestContext) (instanceID : string)
    (details : brokerapi.PollDetails.t) (err : error) :
  atlasClientFromContext ctx = Err err ->
  LastOperation ctx instanceID details = (Err err, []).
Proof. intros Hctx. unfold LastOperation. now rewrite Hctx. Qed.

Ltac unfold_states :=
  unfold operationState, OperationProvision, OperationDeprovision,
    OperationUpdate, ClusterStateIdle, ClusterStateCreating,
    ClusterStateUpdating, ClusterStateDeleting, ClusterStateDeleted,
    brokerapi.Succeeded, brokerapi.InProgress, brokerapi.Failed in *.

(** The switch of LastOperation, row by row. *)
Lemma operationState_cases (operationData : string) (cluster : Cluster.t)
    (err : option error) :
  let state := operationState operationData cluster err in
  let stateName := Cluster.StateName cluster in
  (state = brokerapi.Succeeded
   <-> (operationData = "provision" /\ stateName = "IDLE")
       \/ (operationData = "update" /\ stateName = "IDLE")
       \/ (operationData = "deprovision"
           /\ (err = Some ErrInstanceDoesNotExist \/ stateName = "DELETED")))
  /\ (state = brokerapi.InProgress
      <-> (operationData = "provision" /\ stateName = "CREATING")
          \/ (operationData = "update" /\ stateName = "UPDATING")
          \/ (operationData = "deprovision"
              /\ err <> Some ErrInstanceDoesNotExist /\ stateName = "DELETING"))
  /\ (state = brokerapi.Failed
      <-> ~ ((operationData = "provision" /\ stateName = "IDLE")
             \/ (operationData = "update" /\ stateName = "IDLE")
             \/ (operationData = "deprovision"
                 /\ (err = Some ErrInstanceDoesNotExist \/ stateName = "DELETED")))
          /\ ~ ((operationData = "provision" /\ stateName = "CREATING")
                \/ (operationData = "update" /\ stateName = "UPDATING")
                \/ (operationData = "deprovision"
                    /\ err <> Some ErrInstanceDoesNotExist
                    /\ stateName = "DELETING")))
  /\ (state = brokerapi.Succeeded \/ state = brokerapi.InProgress
      \/ state = brokerapi.Failed).
Proof.
  cbv zeta. unfold_states.
  generalize (Cluster.StateName cluster). intros stateName.
  repeat (case_bool_decide; simpl); subst; intuition congruence.
Qed.

(** A lookup that failed leaves [atlas.Cluster{}], whose state is none of
    the states of the switch. *)
Lemma operationState_zero (operationData : string) (err : option error) :
  operationState operationData Cluster.zero err
  = if bool_decide (operationData = "deprovision")
       && bool_decide (err = Some ErrInstanceDoesNotExist)
    then brokerapi.Succeeded
    else brokerapi.Failed.
Proof.
  unfold_states. simpl.
  repeat (case_bool_decide; simpl); subst; congruence.
Qed.

(** C1. The switch of LastOperation is a function of the operation, the
    state of the cluster and the error of the lookup, with one of the three
    poll states for every input: succeeded and in progress exactly on the
    rows of the table, failed on every other input, among them every
    unknown operation and every unknown state.  LastOperation returns the
    state of the switch whenever the lookup finds a cluster or reports that
    there is none; a lookup that finds none is failed for every operation
    but deprovision.  (An error of the lookup other than
    ErrInstanceDoesNotExist is returned before the switch; the switch would
    class it as failed.) *)
Theorem LastOperation_state_machine (operationData : string) :
  (forall (cluster : Cluster.t) (err : option error),
     let state := operationState operationData cluster err in
     let stateName := Cluster.StateName cluster in
     (state = "succeeded"
      <-> (operationData = "provision" /\ stateName = "IDLE")
          \/ (operationData = "update" /\ stateName = "IDLE")
          \/ (operationData = "deprovision"
              /\ (err = Some ErrInstanceDoesNotExist \/ stateName = "DELETED")))
     /\ (state = "in progress"
         <-> (operationData = "provision" /\ stateName = "CREATING")
             \/ (operationData = "update" /\ stateName = "UPDATING")
             \/ (operationData = "deprovision"
                 /\ err <> Some ErrInstanceDoesNotExist
                 /\ stateName = "DELETING"))
     /\ (state = "failed"
         <-> ~ ((operationData = "provision" /\ stateName = "IDLE")
                \/ (operationData = "update" /\ stateName = "IDLE")
                \/ (operationData = "deprovision"
                    /\ (err = Some ErrInstanceDoesNotExist
                        \/ stateName = "DELETED")))
             /\ ~ ((operationData = "provision" /\ stateName = "CREATING")
                   \/ (operationData = "update" /\ stateName = "UPDATING")
                   \/ (operationData = "deprovision"
                       /\ err <> Some ErrInstanceDoesNotExist
                       /\ stateName = "DELETING")))
     /\ (state = "succeeded" \/ state = "in progress" \/ state = "failed"))
  /\ (forall err : error,
        err <> ErrInstanceDoesNotExist ->
        operationState operationData Cluster.zero (Some err) = "failed")
  /\ (forall (ctx : RequestContext) (client : Client.t)
             (instanceID serviceID planID : string),
        atlasClientFromContext ctx = Ok client ->
        let poll :=
          result (LastOperation ctx instanceID
                    (brokerapi.PollDetails.mk serviceID planID operationData)) in
        (forall cluster,
           result (findClusterByInstanceID client instanceID) = Ok cluster ->
           poll = Ok (brokerapi.LastOperation.mk
                        (operationState operationData cluster None) ""))
        /\ (result (findClusterByInstanceID client instanceID)
              = Err ErrInstanceDoesNotExist ->
            poll = Ok (brokerapi.LastOperation.mk
                         (operationState operationData Cluster.zero
                            (Some ErrInstanceDoesNotExist)) "")
            /\ (operationData = "deprovision" ->
                poll = Ok (brokerapi.LastOperation.mk "succeeded" ""))
            /\ (operationData <> "deprovision" ->
                poll = Ok (brokerapi.LastOperation.mk "failed" "")))).
Proof.
  split; [|split].
  - intros cluster err. apply operationState_cases.
  - intros err Hne. rewrite operationState_zero.
    rewrite (bool_decide_eq_false_2 (Some err = Some ErrInstanceDoesNotExist))
      by congruence.
    now rewrite andb_false_r.
  - intros ctx client instanceID serviceID planID Hclient. cbv zeta.
    rewrite (LastOperation_result _ _ _ _ Hclient). simpl.
    split.
    + intros cluster Hfound. now rewrite Hfound.
    + intros Hnone. rewrite Hnone. simpl. split; [reflexivity|].
      rewrite operationState_zero.
      rewrite (bool_decide_eq_true_2 (Some ErrInstanceDoesNotExist = _) eq_refl).
      split; intros Hop.
      * now rewrite (bool_decide_eq_true_2 _ Hop).
      * now rewrite (bool_decide_eq_false_2 _ Hop).
Qed.

(** *** Errors of the lookup in LastOperation *)

(** C6, as the code has it.  A lookup that fails with
    ErrInstanceDoesNotExist gives a result with a nil error for every
    operation: the state is succeeded for deprovision and failed for every
    other operation.  Every other error of the lookup, and the error of a
    context without client, is returned as it is.  In particular a poll
    for deprovision, when the list of the remote side holds no cluster of
    the instance, returns succeeded. *)
Theorem LastOperation_lookup_errors (ctx : RequestContext) (instanceID : string)
    (details : brokerapi.PollDetails.t) :
  (forall err,
     atlasClientFromContext ctx = Err err ->
     LastOperation ctx instanceID details = (Err err, []))
  /\ (forall client,
        atlasClientFromContext ctx = Ok client ->
        (result (findClusterByInstanceID client instanceID)
           = Err ErrInstanceDoesNotExist ->
         result (LastOperation ctx instanceID details)
         = Ok (brokerapi.LastOperation.mk
                 (if bool_decide
                       (brokerapi.PollDetails.OperationData details = "deprovision")
                  then "succeeded" else "failed") ""))
        /\ (forall err,
              err <> ErrInstanceDoesNotExist ->
              result (findClusterByInstanceID client instanceID) = Err err ->
              result (LastOperation ctx instanceID details) = Err err)
        /\ (forall clusters,
              Client.GetClusters client = Ok clusters ->
              Forall (fun c => ~ Matches instanceID c) clusters ->
              brokerapi.PollDetails.OperationData details = "deprovision" ->
              LastOperation ctx instanceID details
              = (Ok (brokerapi.LastOperation.mk "succeeded" ""), [ListClusters]))).
Proof.
  split; [apply LastOperation_no_client|].
  intros client Hclient.
  split; [|split].
  - rewrite (LastOperation_result _ _ _ _ Hclient). intros Hnone.
    rewrite Hnone. simpl. rewrite operationState_zero.
    rewrite (bool_decide_eq_true_2 (Some ErrInstanceDoesNotExist = _) eq_refl).
    now rewrite andb_true_r.
  - rewrite (LastOperation_result _ _ _ _ Hclient). intros err Hne Herr.
    rewrite Herr. now rewrite (bool_decide_eq_false_2 _ Hne).
  - intros clusters Hlist Hnone Hop. rewrite (LastOperation_eq _ _ _ _ Hclient).
    rewrite findClusterByInstanceID_eq, Hlist. unfold result, calls. simpl.
    apply scanClusters_none in Hnone. rewrite Hnone. simpl.
    rewrite operationState_zero, Hop. reflexivity.
Qed.

(** *** The parameter resolver *)

Lemma clusterFromParams_eq (client : Client.t)
    (instanceID serviceID planID rawParams : string) (params : Params.t) :
  parseParams rawParams = Ok params ->
  clusterFromParams client instanceID serviceID planID rawParams
  = if bool_decide (planID ≠ "") then
      provider ← findProviderByServiceID client serviceID;
      instanceSize ← findInstanceSizeByPlanID provider planID;
      cluster ← deref (Params.Cluster params);
      Ok (Some (Cluster.setProviderSettings
                  (Some (ProviderSettings.setInstanceSizeName
                           (InstanceSize.Name instanceSize)
                           (ProviderSettings.setProviderName
                              (Provider.Name provider)
                              (default ProviderSettings.zero
                                 (Cluster.ProviderSettings cluster)))))
                  cluster))
    else Ok (Params.Cluster params).
Proof.
  intros Hparse. unfold clusterFromParams. rewrite Hparse. reflexivity.
Qed.

(** What Ok-results of the resolver with a plan look like. *)
Lemma clusterFromParams_plan_inv (client : Client.t)
    (instanceID serviceID planID rawParams : string)
    (returned : option Cluster.t) :
  planID <> "" ->
  clusterFromParams client instanceID serviceID planID rawParams = Ok returned ->
  exists params parsed provider instanceSize,
    parseParams rawParams = Ok params
    /\ Params.Cluster params = Some parsed
    /\ findProviderByServiceID client serviceID = Ok provider
    /\ findInstanceSizeByPlanID provider planID = Ok instanceSize
    /\ returned
       = Some (Cluster.setProviderSettings
                 (Some (ProviderSettings.setInstanceSizeName
                          (InstanceSize.Name instanceSize)
                          (ProviderSettings.setProviderName
                             (Provider.Name provider)
                             (default ProviderSettings.zero
                                (Cluster.ProviderSettings parsed)))))
                 parsed).
Proof.
  intros Hplan.
  destruct (parseParams rawParams) as [params| |] eqn:Hparse.
  2,3: unfold clusterFromParams; rewrite Hparse; simpl; discriminate.
  rewrite (clusterFromParams_eq _ _ _ _ _ _ Hparse).
  rewrite (bool_decide_eq_true_2 _ Hplan).
  destruct (findProviderByServiceID client serviceID) as [provider| |] eqn:Hp;
    simpl; try discriminate.
  destruct (findInstanceSizeByPlanID provider planID) as [instanceSize| |] eqn:Hs;
    simpl; try discriminate.
  destruct (Params.Cluster params) as [parsed|] eqn:Hparsed; simpl; [|discriminate].
  intros [= <-]. exists params, parsed, provider, instanceSize.
  repeat split; assumption.
Qed.

(** C3. With a plan ID that is not empty, every cluster that
    clusterFromParams returns, for every payload, has provider settings
    whose provider name and instance size name are the names that the
    catalog gives for the service and the plan, whatever the payload set
    for the two fields, and which are not empty when the names of the
    catalog are not; the other provider fields and the rest of the cluster
    are as parsed.  Such a cluster is returned whenever the payload parses
    to a cluster and the catalog knows the service and the plan. *)
Theorem clusterFromParams_plan (client : Client.t)
    (instanceID serviceID planID rawParams : string) :
  planID <> "" ->
  (forall returned,
     clusterFromParams client instanceID serviceID planID rawParams = Ok returned ->
     exists cluster settings provider instanceSize,
       returned = Some cluster
       /\ Cluster.ProviderSettings cluster = Some settings
       /\ findProviderByServiceID client serviceID = Ok provider
       /\ findInstanceSizeByPlanID provider planID = Ok instanceSize
       /\ ProviderSettings.ProviderName settings = Provider.Name provider
       /\ ProviderSettings.InstanceSizeName settings = InstanceSize.Name instanceSize
       /\ (Provider.Name provider <> "" ->
           ProviderSettings.ProviderName settings <> "")
       /\ (InstanceSize.Name instanceSize <> "" ->
           ProviderSettings.InstanceSizeName settings <> ""))
  /\ (forall params parsed provider instanceSize,
        parseParams rawParams = Ok params ->
        Params.Cluster params = Some parsed ->
        findProviderByServiceID client serviceID = Ok provider ->
        findInstanceSizeByPlanID provider planID = Ok instanceSize ->
        exists cluster settings,
          clusterFromParams client instanceID serviceID planID rawParams
          = Ok (Some cluster)
          /\ Cluster.ProviderSettings cluster = Some settings
          /\ ProviderSettings.ProviderName settings = Provider.Name provider
          /\ ProviderSettings.InstanceSizeName settings
             = InstanceSize.Name instanceSize
          /\ (forall user,
                Cluster.ProviderSettings parsed = Some user ->
                settings
                = ProviderSettings.mk (Provider.Name provider)
                    (InstanceSize.Name instanceSize)
                    (ProviderSettings.RegionName user)
                    (ProviderSettings.DiskIOPS user)
                    (ProviderSettings.DiskTypeName user)
                    (ProviderSettings.EncryptEBSVolume user)
                    (ProviderSettings.VolumeType user))
          /\ Cluster.setProviderSettings (Cluster.ProviderSettings parsed) cluster
             = parsed).
Proof.
  intros Hplan. split.
  - intros returned Hreturned.
    destruct (clusterFromParams_plan_inv _ _ _ _ _ _ Hplan Hreturned)
      as (params & parsed & provider & instanceSize & _ & _ & Hp & Hs & ->).
    eexists _, _, provider, instanceSize.
    split; [reflexivity|]. split; [reflexivity|].
    split; [exact Hp|]. split; [exact Hs|]. simpl. auto.
  - intros params parsed provider instanceSize Hparse Hparsed Hp Hs.
    rewrite (clusterFromParams_eq _ _ _ _ _ _ Hparse).
    rewrite (bool_decide_eq_true_2 _ Hplan), Hp. simpl.
    rewrite Hs. simpl. rewrite Hparsed. simpl.
    eexists _, _. split; [reflexivity|]. split; [reflexivity|].
    split; [reflexivity|]. split; [reflexivity|]. split.
    + intros user ->. reflexivity.
    + now destruct parsed.
Qed.

(** C8. With the empty plan ID clusterFromParams returns the cluster
    pointer exactly as the payload was parsed: the cluster that
    json.Unmarshal left in the params object for a payload that is not
    empty, the empty cluster for the empty payload.  No field is added,
    removed or changed, and neither catalog nor client is consulted. *)
Theorem clusterFromParams_no_plan (client : Client.t)
    (instanceID serviceID rawParams : string) :
  (forall params,
     0 < String.length rawParams ->
     unmarshalParams rawParams (Params.mk (Some Cluster.zero)) = Ok params ->
     clusterFromParams client instanceID serviceID "" rawParams
     = Ok (Params.Cluster params))
  /\ (rawParams = "" ->
      clusterFromParams client instanceID serviceID "" rawParams
      = Ok (Some Cluster.zero))
  /\ (forall params,
        parseParams rawParams = Ok params ->
        clusterFromParams client instanceID serviceID "" rawParams
        = Ok (Params.Cluster params)).
Proof.
  assert (Hparsed : forall params,
             parseParams rawParams = Ok params ->
             clusterFromParams client instanceID serviceID "" rawParams
             = Ok (Params.Cluster params)).
  { intros params Hparse. now rewrite (clusterFromParams_eq _ _ _ _ _ _ Hparse). }
  split; [|split; [|exact Hparsed]].
  - intros params Hlen Hjson. apply Hparsed. unfold parseParams.
    destruct (Nat.ltb_spec 0 (String.length rawParams)); [exact Hjson|lia].
  - intros ->. exact (Hparsed (Params.mk (Some Cluster.zero)) eq_refl).
Qed.

(** *** Provision *)

Lemma clusterNameFromIDAndContext_empty (instanceID : string) :
  clusterNameFromIDAndContext instanceID "" = Ok (NormalizeClusterName instanceID).
Proof. reflexivity. Qed.

(** C9. When json.Unmarshal sets the cluster pointer of the params object
    to nil for the payload with a null cluster, as the Go library does for
    the literal null, then for that payload: clusterFromParams with the
    empty plan ID returns the nil pointer and no error; with another plan
    ID that the catalog knows it panics; and Provision panics in both
    cases, at the assignment of the name when the cluster name was built,
    before any request to the cluster API. *)
Theorem clusterFromParams_null_cluster (client : Client.t)
    (instanceID serviceID planID : string) :
  unmarshalParams nullClusterParams (Params.mk (Some Cluster.zero))
  = Ok (Params.mk None) ->
  clusterFromParams client instanceID serviceID "" nullClusterParams = Ok None
  /\ (forall provider instanceSize,
        planID <> "" ->
        findProviderByServiceID client serviceID = Ok provider ->
        findInstanceSizeByPlanID provider planID = Ok instanceSize ->
        clusterFromParams client instanceID serviceID planID nullClusterParams
        = Panic)
  /\ (forall ctx rawContext clusterName,
        atlasClientFromContext ctx = Ok client ->
        clusterNameFromIDAndContext instanceID rawContext = Ok clusterName ->
        Provision ctx instanceID
          (brokerapi.ProvisionDetails.mk serviceID "" rawContext nullClusterParams)
          true
        = (Panic, []))
  /\ (forall ctx rawContext provider instanceSize,
        planID <> "" ->
        findProviderByServiceID client serviceID = Ok provider ->
        findInstanceSizeByPlanID provider planID = Ok instanceSize ->
        atlasClientFromContext ctx = Ok client ->
        Provision ctx instanceID
          (brokerapi.ProvisionDetails.mk serviceID planID rawContext
             nullClusterParams)
          true
        = (Panic, [])).
Proof.
  intros Hnull.
  assert (Hparse : parseParams nullClusterParams = Ok (Params.mk None))
    by exact Hnull.
  assert (Hnil : clusterFromParams client instanceID serviceID "" nullClusterParams
                 = Ok None).
  { now rewrite (clusterFromParams_eq _ _ _ _ _ _ Hparse). }
  assert (Hpanic : forall provider instanceSize,
             planID <> "" ->
             findProviderByServiceID client serviceID = Ok provider ->
             findInstanceSizeByPlanID provider planID = Ok instanceSize ->
             clusterFromParams client instanceID serviceID planID
               nullClusterParams = Panic).
  { intros provider instanceSize Hplan Hp Hs.
    rewrite (clusterFromParams_eq _ _ _ _ _ _ Hparse).
    rewrite (bool_decide_eq_true_2 _ Hplan), Hp. simpl. now rewrite Hs. }
  split; [exact Hnil|]. split; [exact Hpanic|]. split.
  - intros ctx rawContext clusterName Hclient Hname.
    unfold Provision. rewrite Hclient. simpl. rewrite Hnil. simpl.
    rewrite Hname. reflexivity.
  - intros ctx rawContext provider instanceSize Hplan Hp Hs Hclient.
    unfold Provision. rewrite Hclient. simpl.
    rewrite (Hpanic _ _ Hplan Hp Hs). reflexivity.
Qed.

(** *** Update *)

Lemma findClusterByInstanceID_pair (client : Client.t) (instanceID : string)
    (found : Res Cluster.t) :
  result (findClusterByInstanceID client instanceID) = found ->
  findClusterByInstanceID client instanceID = (found, [ListClusters]).
Proof. rewrite findClusterByInstanceID_eq. now intros <-. Qed.

(** Update up to the request, for an instance that is found and
    parameters that resolve to a cluster. *)
Lemma Update_eq (ctx : RequestContext) (instanceID : string)
    (details : brokerapi.UpdateDetails.t) (client : Client.t)
    (existingCluster cluster : Cluster.t) :
  atlasClientFromContext ctx = Ok client ->
  result (findClusterByInstanceID client instanceID) = Ok existingCluster ->
  clusterFromParams client instanceID
    (brokerapi.UpdateDetails.ServiceID details)
    (brokerapi.UpdateDetails.PlanID details)
    (brokerapi.UpdateDetails.RawParameters details) = Ok (Some cluster) ->
  Update ctx instanceID details true
  = match backfillProvider existingCluster
            (Cluster.setName (Cluster.Name existingCluster) cluster) with
    | Ok outgoing =>
        (resultingCluster ←
           mapErr atlasToAPIError (Client.UpdateCluster client outgoing);
         Ok (brokerapi.UpdateServiceSpec.mk true
               (Client.GetDashboardURL client (Cluster.Name resultingCluster))
               OperationUpdate),
         [ListClusters; UpdateClusterCall outgoing])
    | Err err => (Err err, [ListClusters])
    | Panic => (Panic, [ListClusters])
    end.
Proof.
  intros Hclient Hfound Hresolved. unfold Update.
  rewrite Hclient. simpl.
  rewrite (findClusterByInstanceID_pair _ _ _ Hfound). simpl.
  rewrite Hresolved. simpl.
  destruct (backfillProvider existingCluster _) as [outgoing| |]; simpl;
    try reflexivity.
  unfold call.
  destruct (mapErr atlasToAPIError (Client.UpdateCluster client outgoing));
    reflexivity.
Qed.

Lemma backfillProvider_none (existingCluster cluster : Cluster.t) :
  Cluster.ProviderSettings cluster = None ->
  backfillProvider existingCluster cluster = Ok cluster.
Proof. intros Hnone. unfold backfillProvider. now rewrite Hnone. Qed.

Lemma backfillProvider_complete (existingCluster cluster : Cluster.t)
    (settings : ProviderSettings.t) :
  Cluster.ProviderSettings cluster = Some settings ->
  ProviderSettings.ProviderName settings <> "" ->
  ProviderSettings.InstanceSizeName settings <> "" ->
  backfillProvider existingCluster cluster = Ok cluster.
Proof.
  intros Hsome Hname Hsize. unfold backfillProvider. rewrite Hsome.
  rewrite (bool_decide_eq_false_2 _ Hname). simpl.
  rewrite (bool_decide_eq_false_2 _ Hsize). simpl.
  destruct cluster; simpl in *. now rewrite Hsome.
Qed.

Lemma backfillProvider_some (existingCluster cluster : Cluster.t)
    (settings current : ProviderSettings.t) :
  Cluster.ProviderSettings cluster = Some settings ->
  Cluster.ProviderSettings existingCluster = Some current ->
  backfillProvider existingCluster cluster
  = Ok (Cluster.setProviderSettings
          (Some (ProviderSettings.mk
                   (if bool_decide (ProviderSettings.ProviderName settings = "")
                    then ProviderSettings.ProviderName current
                    else ProviderSettings.ProviderName settings)
                   (if bool_decide (ProviderSettings.InstanceSizeName settings = "")
                    then ProviderSettings.InstanceSizeName current
                    else ProviderSettings.InstanceSizeName settings)
                   (ProviderSettings.RegionName settings)
                   (ProviderSettings.DiskIOPS settings)
                   (ProviderSettings.DiskTypeName settings)
                   (ProviderSettings.EncryptEBSVolume settings)
                   (ProviderSettings.VolumeType settings)))
          cluster).
Proof.
  intros Hsome Hcurrent. unfold backfillProvider. rewrite Hsome, Hcurrent.
  destruct settings as [name size region iops disk ebs volume]. simpl.
  do 2 (case_bool_decide; simpl); reflexivity.
Qed.

Lemma backfillProvider_panic (existingCluster cluster : Cluster.t)
    (settings : ProviderSettings.t) :
  Cluster.ProviderSettings cluster = Some settings ->
  Cluster.ProviderSettings existingCluster = None ->
  ProviderSettings.ProviderName settings = ""
  \/ ProviderSettings.InstanceSizeName settings = "" ->
  backfillProvider existingCluster cluster = Panic.
Proof.
  intros Hsome Hnil Hempty. unfold backfillProvider. rewrite Hsome, Hnil.
  destruct settings as [name size region iops disk ebs volume]. simpl in *.
  case_bool_decide; simpl; [reflexivity|].
  case_bool_decide; simpl; [reflexivity|]. tauto.
Qed.

Lemma backfillProvider_name (existingCluster cluster outgoing : Cluster.t) :
  backfillProvider existingCluster cluster = Ok outgoing ->
  Cluster.Name outgoing = Cluster.Name cluster.
Proof.
  unfold backfillProvider.
  destruct (Cluster.ProviderSettings cluster) as [settings|]; [|congruence].
  destruct (Cluster.ProviderSettings existingCluster) as [current|];
    repeat (case_bool_decide; simpl); try discriminate;
    now intros [= <-].
Qed.

(** Every update request of Update carries the name of the cluster that
    the locator found. *)
Lemma Update_name (ctx : RequestContext) (instanceID : string)
    (details : brokerapi.UpdateDetails.t) (asyncAllowed : bool)
    (outgoing : Cluster.t) :
  In (UpdateClusterCall outgoing)
     (calls (Update ctx instanceID details asyncAllowed)) ->
  exists client existingCluster,
    atlasClientFromContext ctx = Ok client
    /\ result (findClusterByInstanceID client instanceID) = Ok existingCluster
    /\ Cluster.Name outgoing = Cluster.Name existingCluster.
Proof.
  destruct (atlasClientFromContext ctx) as [client| |] eqn:Hclient.
  2,3: unfold Update; rewrite Hclient; intros [].
  destruct asyncAllowed.
  2: unfold Update; rewrite Hclient; intros [].
  destruct (result (findClusterByInstanceID client instanceID))
    as [existingCluster| |] eqn:Hfound.
  2,3: unfold Update; rewrite Hclient; simpl;
       rewrite (findClusterByInstanceID_pair _ _ _ Hfound); simpl;
       intros [H|[]]; discriminate H.
  destruct (clusterFromParams client instanceID
              (brokerapi.UpdateDetails.ServiceID details)
              (brokerapi.UpdateDetails.PlanID details)
              (brokerapi.UpdateDetails.RawParameters details))
    as [[resolved|]| |] eqn:Hresolved.
  2,3,4: unfold Update; rewrite Hclient; simpl;
         rewrite (findClusterByInstanceID_pair _ _ _ Hfound); simpl;
         rewrite Hresolved; simpl; intros [H|[]]; discriminate H.
  rewrite (Update_eq _ _ _ _ _ _ Hclient Hfound Hresolved).
  intros Hin. exists client, existingCluster.
  split; [reflexivity|]. split; [exact Hfound|].
  destruct (backfillProvider existingCluster _) as [sent| |] eqn:Hfill;
    unfold calls in Hin; simpl in Hin.
  - destruct Hin as [H|[H|[]]]; [discriminate H|]. injection H as ->.
    now rewrite (backfillProvider_name _ _ _ Hfill).
  - destruct Hin as [H|[]]. discriminate H.
  - destruct Hin as [H|[]]. discriminate H.
Qed.

(** C4. Every spec that Update sends carries the name of the existing
    cluster that the locator found.  For an instance that is found and
    parameters that resolve to a cluster: when the resolved spec has
    provider settings and the existing cluster has them, the request is
    sent, with provider name and instance size name taken from the
    existing cluster where the resolved ones are empty and kept where they
    are not, and every other field as resolved; a resolved spec without
    provider settings is sent with the name changed only.  In particular
    provider AWS and size M10 of the existing cluster and a resolved spec
    with a region alone give AWS, M10 and that region. *)
Theorem Update_outgoing_spec (ctx : RequestContext) (instanceID : string)
    (details : brokerapi.UpdateDetails.t) :
  (forall asyncAllowed outgoing,
     In (UpdateClusterCall outgoing)
        (calls (Update ctx instanceID details asyncAllowed)) ->
     exists client existingCluster,
       atlasClientFromContext ctx = Ok client
       /\ result (findClusterByInstanceID client instanceID) = Ok existingCluster
       /\ Cluster.Name outgoing = Cluster.Name existingCluster)
  /\ (forall client existingCluster resolved,
        atlasClientFromContext ctx = Ok client ->
        result (findClusterByInstanceID client instanceID) = Ok existingCluster ->
        clusterFromParams client instanceID
          (brokerapi.UpdateDetails.ServiceID details)
          (brokerapi.UpdateDetails.PlanID details)
          (brokerapi.UpdateDetails.RawParameters details) = Ok (Some resolved) ->
        (forall settings current,
           Cluster.ProviderSettings resolved = Some settings ->
           Cluster.ProviderSettings existingCluster = Some current ->
           exists outgoing sent,
             calls (Update ctx instanceID details true)
             = [ListClusters; UpdateClusterCall outgoing]
             /\ Cluster.Name outgoing = Cluster.Name existingCluster
             /\ Cluster.ProviderSettings outgoing = Some sent
             /\ (ProviderSettings.ProviderName settings = "" ->
                 ProviderSettings.ProviderName sent
                 = ProviderSettings.ProviderName current)
             /\ (ProviderSettings.ProviderName settings <> "" ->
                 ProviderSettings.ProviderName sent
                 = ProviderSettings.ProviderName settings)
             /\ (ProviderSettings.InstanceSizeName settings = "" ->
                 ProviderSettings.InstanceSizeName sent
                 = ProviderSettings.InstanceSizeName current)
             /\ (ProviderSettings.InstanceSizeName settings <> "" ->
                 ProviderSettings.InstanceSizeName sent
                 = ProviderSettings.InstanceSizeName settings)
             /\ ProviderSettings.setInstanceSizeName
                  (ProviderSettings.InstanceSizeName settings)
                  (ProviderSettings.setProviderName
                     (ProviderSettings.ProviderName settings) sent)
                = settings
             /\ Cluster.setProviderSettings (Some settings)
                  (Cluster.setName (Cluster.Name resolved) outgoing)
                = resolved
             /\ (ProviderSettings.ProviderName current = "AWS" ->
                 ProviderSettings.InstanceSizeName current = "M10" ->
                 ProviderSettings.ProviderName settings = "" ->
                 ProviderSettings.InstanceSizeName settings = "" ->
                 ProviderSettings.ProviderName sent = "AWS"
                 /\ ProviderSettings.InstanceSizeName sent = "M10"
                 /\ ProviderSettings.RegionName sent
                    = ProviderSettings.RegionName settings))
        /\ (Cluster.ProviderSettings resolved = None ->
            calls (Update ctx instanceID details true)
            = [ListClusters;
               UpdateClusterCall
                 (Cluster.setName (Cluster.Name existingCluster) resolved)])).
Proof.
  split; [intros asyncAllowed outgoing; apply Update_name|].
  intros client existingCluster resolved Hclient Hfound Hresolved.
  rewrite (Update_eq _ _ _ _ _ _ Hclient Hfound Hresolved).
  split.
  - intros settings current Hsettings Hcurrent.
    rewrite (backfillProvider_some existingCluster
               (Cluster.setName (Cluster.Name existingCluster) resolved)
               settings current) by (destruct resolved; exact Hsettings || exact Hcurrent).
    unfold calls. simpl. eexists _, _.
    split; [reflexivity|]. split; [reflexivity|]. split; [reflexivity|].
    simpl.
    split; [intros H; now rewrite (bool_decide_eq_true_2 _ H)|].
    split; [intros H; now rewrite (bool_decide_eq_false_2 _ H)|].
    split; [intros H; now rewrite (bool_decide_eq_true_2 _ H)|].
    split; [intros H; now rewrite (bool_decide_eq_false_2 _ H)|].
    split; [now destruct settings|].
    split; [destruct resolved; simpl in *; now rewrite Hsettings|].
    intros Haws Hm10 Hname Hsize.
    rewrite (bool_decide_eq_true_2 _ Hname), (bool_decide_eq_true_2 _ Hsize).
    auto.
  - intros Hnone.
    rewrite backfillProvider_none by (destruct resolved; exact Hnone).
    reflexivity.
Qed.

(** C10. For an instance that is found with a nil providerSettings
    pointer and parameters that resolve to a cluster whose provider
    settings lack the provider name or the instance size name, Update
    panics in the backfill, after the list request and before any update
    request. *)
Theorem Update_nil_provider_panics (ctx : RequestContext) (instanceID : string)
    (details : brokerapi.UpdateDetails.t) (client : Client.t)
    (existingCluster resolved : Cluster.t) (settings : ProviderSettings.t) :
  atlasClientFromContext ctx = Ok client ->
  result (findClusterByInstanceID client instanceID) = Ok existingCluster ->
  clusterFromParams client instanceID
    (brokerapi.UpdateDetails.ServiceID details)
    (brokerapi.UpdateDetails.PlanID details)
    (brokerapi.UpdateDetails.RawParameters details) = Ok (Some resolved) ->
  Cluster.ProviderSettings existingCluster = None ->
  Cluster.ProviderSettings resolved = Some settings ->
  ProviderSettings.ProviderName settings = ""
  \/ ProviderSettings.InstanceSizeName settings = "" ->
  Update ctx instanceID details true = (Panic, [ListClusters]).
Proof.
  intros Hclient Hfound Hresolved Hnil Hsettings Hempty.
  rewrite (Update_eq _ _ _ _ _ _ Hclient Hfound Hresolved).
  rewrite (backfillProvider_panic existingCluster
             (Cluster.setName (Cluster.Name existingCluster) resolved) settings);
    [reflexivity| |exact Hnil|exact Hempty].
  destruct resolved; exact Hsettings.
Qed.

(** *** The three operations without async *)

(** C7. With asyncAllowed false none of Provision, Update and Deprovision
    issues a request to the cluster API, whatever the context; and for a
    request context that carries an Atlas client each of them fails with
    ErrAsyncRequired. *)
Theorem async_required (ctx : RequestContext) (instanceID : string)
    (provision : brokerapi.ProvisionDetails.t)
    (update : brokerapi.UpdateDetails.t)
    (deprovision : brokerapi.DeprovisionDetails.t) :
  (calls (Provision ctx instanceID provision false) = []
   /\ calls (Update ctx instanceID update false) = []
   /\ calls (Deprovision ctx instanceID deprovision false) = [])
  /\ (forall client,
        atlasClientFromContext ctx = Ok client ->
        Provision ctx instanceID provision false = (Err ErrAsyncRequired, [])
        /\ Update ctx instanceID update false = (Err ErrAsyncRequired, [])
        /\ Deprovision ctx instanceID deprovision false
           = (Err ErrAsyncRequired, [])).
Proof.
  unfold Provision, Update, Deprovision. split.
  - destruct (atlasClientFromContext ctx); repeat split.
  - intros client ->. repeat split.
Qed.

(** ** Further properties of the package *)

(** *** Names *)

Lemma take_nil_iff {A : Type} (n : nat) (l : list A) :
  0 < n -> (take n l = [] <-> l = []).
Proof.
  intros Hn. destruct n as [|n]; [lia|]. destruct l; simpl; split; congruence.
Qed.

Lemma NormalizeClusterName_le (s : string) :
  String.length (NormalizeClusterName s) <= 23.
Proof. rewrite NormalizeClusterName_length. apply Nat.le_min_l. Qed.

Lemma NormalizeClusterName_empty (s : string) :
  NormalizeClusterName s = "" -> s = "".
Proof.
  intros Hempty. apply list_ascii_inj.
  apply (f_equal String.list_ascii_of_string) in Hempty.
  rewrite NormalizeClusterName_take in Hempty.
  apply (take_nil_iff maximumNameLength); [unfold maximumNameLength; lia|].
  exact Hempty.
Qed.

(** X1. A normalized name is never longer than 23 bytes and is a prefix
    of the name; it is empty only for the empty name; and two names have
    the same normalized name exactly when their first 23 bytes agree. *)
Theorem NormalizeClusterName_prefix (s t : string) :
  String.length (NormalizeClusterName s) <= 23
  /\ (exists rest, s = NormalizeClusterName s +:+ rest)
  /\ (NormalizeClusterName s = "" <-> s = "")
  /\ (NormalizeClusterName s = NormalizeClusterName t
      <-> take 23 (String.list_ascii_of_string s)
          = take 23 (String.list_ascii_of_string t)).
Proof.
  split; [|split; [|split]].
  - apply NormalizeClusterName_le.
  - exists (String.string_of_list_ascii (drop 23 (String.list_ascii_of_string s))).
    apply list_ascii_inj.
    rewrite list_ascii_app, NormalizeClusterName_take,
      String.list_ascii_of_string_of_list_ascii.
    symmetry. apply take_drop.
  - split; [apply NormalizeClusterName_empty|now intros ->].
  - rewrite <- !(NormalizeClusterName_take). split; [now intros ->|].
    apply list_ascii_inj.
Qed.

Lemma clusterNameFromIDAndContext_eq (instanceID rawContext : string) :
  clusterNameFromIDAndContext instanceID rawContext
  = (context ← (if (0 <? String.length rawContext)%nat
                then unmarshalContext rawContext (ContextParams.mk "")
                else Ok (ContextParams.mk ""));
     Ok (if bool_decide (ContextParams.InstanceName context = "")
         then NormalizeClusterName instanceID
         else ContextParams.InstanceName context)).
Proof.
  unfold clusterNameFromIDAndContext.
  destruct (if (0 <? String.length rawContext)%nat then _ else _)
    as [context| |]; simpl; try reflexivity.
  destruct (decide (ContextParams.InstanceName context = "")) as [Hempty|Hname].
  - now rewrite (bool_decide_eq_false_2 _ (fun H => H Hempty)),
      (bool_decide_eq_true_2 _ Hempty).
  - now rewrite (bool_decide_eq_true_2 _ Hname), (bool_decide_eq_false_2 _ Hname).
Qed.

(** X2. The name that clusterNameFromIDAndContext builds is the instance
    name of the context as it is, of any length, when the context has one
    that is not empty, and the normalized instance ID, of at most 23 bytes,
    in every other case; it is empty only for the empty instance ID.  An
    empty context is not unmarshalled; an error of json.Unmarshal is
    returned. *)
Theorem clusterNameFromIDAndContext_spec (instanceID rawContext : string) :
  (forall name,
     clusterNameFromIDAndContext instanceID rawContext = Ok name ->
     ((name = NormalizeClusterName instanceID /\ String.length name <= 23)
      \/ (exists context,
            0 < String.length rawContext
            /\ unmarshalContext rawContext (ContextParams.mk "") = Ok context
            /\ ContextParams.InstanceName context = name
            /\ name <> ""))
     /\ (instanceID <> "" -> name <> ""))
  /\ (rawContext = "" ->
      clusterNameFromIDAndContext instanceID rawContext
      = Ok (NormalizeClusterName instanceID))
  /\ (forall context,
        0 < String.length rawContext ->
        unmarshalContext rawContext (ContextParams.mk "") = Ok context ->
        (ContextParams.InstanceName context <> "" ->
         clusterNameFromIDAndContext instanceID rawContext
         = Ok (ContextParams.InstanceName context))
        /\ (ContextParams.InstanceName context = "" ->
            clusterNameFromIDAndContext instanceID rawContext
            = Ok (NormalizeClusterName instanceID)))
  /\ (forall err,
        0 < String.length rawContext ->
        unmarshalContext rawContext (ContextParams.mk "") = Err err ->
        clusterNameFromIDAndContext instanceID rawContext = Err err).
Proof.
  rewrite clusterNameFromIDAndContext_eq.
  destruct (Nat.ltb_spec 0 (String.length rawContext)) as [Hlen|Hlen].
  - split; [|split; [|split]].
    + intros name.
      destruct (unmarshalContext rawContext _) as [context| |] eqn:Hjson;
        simpl; try discriminate.
      case_bool_decide as Hname; intros [= <-].
      * split.
        -- left. split; [reflexivity|apply NormalizeClusterName_le].
        -- intros Hid Hempty. now apply NormalizeClusterName_empty in Hempty.
      * split; [|intros _; exact Hname].
        right. exists context. auto.
    + intros ->. simpl in Hlen. lia.
    + intros context _ ->. simpl. split; intros Hname.
      * now rewrite (bool_decide_eq_false_2 _ Hname).
      * now rewrite (bool_decide_eq_true_2 _ Hname).
    + intros err _ ->. reflexivity.
  - assert (Hempty : rawContext = "") by (destruct rawContext; simpl in *; [reflexivity|lia]).
    subst rawContext. simpl. split; [|split; [|split]].
    + intros name [= <-]. split.
      * left. split; [reflexivity|apply NormalizeClusterName_le].
      * intros Hid Hempty. now apply NormalizeClusterName_empty in Hempty.
    + reflexivity.
    + intros context Hpos. simpl in Hpos. lia.
    + intros err Hpos. simpl in Hpos. lia.
Qed.

(** *** Provision *)

(** Provision after the two checks, path by path. *)
Lemma Provision_eq (ctx : RequestContext) (instanceID : string)
    (details : brokerapi.ProvisionDetails.t) (client : Client.t) :
  atlasClientFromContext ctx = Ok client ->
  Provision ctx instanceID details true
  = match clusterFromParams client instanceID
            (brokerapi.ProvisionDetails.ServiceID details)
            (brokerapi.ProvisionDetails.PlanID details)
            (brokerapi.ProvisionDetails.RawParameters details) with
    | Ok pointer =>
        match clusterNameFromIDAndContext instanceID
                (brokerapi.ProvisionDetails.RawContext details) with
        | Ok clusterName =>
            match pointer with
            | Some cluster =>
                (resultingCluster ←
                   mapErr atlasToAPIError
                     (Client.CreateCluster client
                        (Cluster.SetLabel InstanceIDLabel instanceID
                           (Cluster.setName clusterName cluster)));
                 Ok (brokerapi.ProvisionedServiceSpec.mk true
                       (Client.GetDashboardURL client
                          (Cluster.Name resultingCluster))
                       OperationProvision),
                 [CreateClusterCall
                    (Cluster.SetLabel InstanceIDLabel instanceID
                       (Cluster.setName clusterName cluster))])
            | None => (Panic, [])
            end
        | Err err => (Err err, [])
        | Panic => (Panic, [])
        end
    | Err err => (Err err, [])
    | Panic => (Panic, [])
    end.
Proof.
  intros Hclient. unfold Provision. rewrite Hclient. simpl.
  destruct (clusterFromParams _ _ _ _ _) as [pointer| |]; simpl; try reflexivity.
  destruct (clusterNameFromIDAndContext _ _) as [clusterName| |]; simpl;
    try reflexivity.
  destruct pointer as [cluster|]; simpl; [|reflexivity].
  unfold call.
  destruct (mapErr atlasToAPIError (Client.CreateCluster client _)); reflexivity.
Qed.

(** The create request of Provision, read back from the log. *)
Lemma Provision_created (ctx : RequestContext) (instanceID : string)
    (details : brokerapi.ProvisionDetails.t) (asyncAllowed : bool)
    (created : Cluster.t) :
  In (CreateClusterCall created)
     (calls (Provision ctx instanceID details asyncAllowed)) ->
  exists client cluster clusterName,
    asyncAllowed = true
    /\ atlasClientFromContext ctx = Ok client
    /\ clusterFromParams client instanceID
         (brokerapi.ProvisionDetails.ServiceID details)
         (brokerapi.ProvisionDetails.PlanID details)
         (brokerapi.ProvisionDetails.RawParameters details) = Ok (Some cluster)
    /\ clusterNameFromIDAndContext instanceID
         (brokerapi.ProvisionDetails.RawContext details) = Ok clusterName
    /\ created = Cluster.SetLabel InstanceIDLabel instanceID
                   (Cluster.setName clusterName cluster).
Proof.
  destruct (atlasClientFromContext ctx) as [client| |] eqn:Hclient.
  2,3: unfold Provision; rewrite Hclient; intros [].
  destruct asyncAllowed.
  2: unfold Provision; rewrite Hclient; intros [].
  rewrite (Provision_eq _ _ _ _ Hclient).
  destruct (clusterFromParams _ _ _ _ _) as [[cluster|]| |] eqn:Hresolved;
    destruct (clusterNameFromIDAndContext _ _) as [clusterName| |] eqn:Hname;
    unfold calls; simpl; try tauto.
  intros [Hcall|[]]. injection Hcall as <-.
  exists client, cluster, clusterName. auto.
Qed.

(** X3. When the context carries a client, the parameters resolve to a
    cluster, the cluster name is built and the remote side accepts the
    request, Provision issues one request, to create the resolved cluster
    under that name and with the instance ID as its identity label, every
    other field as resolved, and returns an async result for the operation
    provision whose dashboard URL is that of the name the remote side
    answered with. *)
Theorem Provision_accepted (ctx : RequestContext) (instanceID : string)
    (details : brokerapi.ProvisionDetails.t) (client : Client.t)
    (resolved resultingCluster : Cluster.t) (clusterName : string) :
  atlasClientFromContext ctx = Ok client ->
  clusterFromParams client instanceID
    (brokerapi.ProvisionDetails.ServiceID details)
    (brokerapi.ProvisionDetails.PlanID details)
    (brokerapi.ProvisionDetails.RawParameters details) = Ok (Some resolved) ->
  clusterNameFromIDAndContext instanceID
    (brokerapi.ProvisionDetails.RawContext details) = Ok clusterName ->
  Client.CreateCluster client
    (Cluster.SetLabel InstanceIDLabel instanceID
       (Cluster.setName clusterName resolved)) = Ok resultingCluster ->
  exists created,
    Provision ctx instanceID details true
    = (Ok (brokerapi.ProvisionedServiceSpec.mk true
             (Client.GetDashboardURL client (Cluster.Name resultingCluster))
             "provision"),
       [CreateClusterCall created])
    /\ Cluster.Name created = clusterName
    /\ Cluster.GetLabel created InstanceIDLabel = instanceID
    /\ (forall key, key <> InstanceIDLabel ->
          Cluster.GetLabel created key = Cluster.GetLabel resolved key)
    /\ Cluster.setLabels (Cluster.Labels resolved)
         (Cluster.setName (Cluster.Name resolved) created) = resolved.
Proof.
  intros Hclient Hresolved Hname Hcreate.
  rewrite (Provision_eq _ _ _ _ Hclient), Hresolved, Hname, Hcreate.
  eexists. split; [reflexivity|]. split; [reflexivity|].
  unfold Cluster.GetLabel, Cluster.SetLabel. simpl.
  split; [now rewrite lookup_insert_eq|].
  split; [intros key Hkey; now rewrite lookup_insert_ne|].
  now destruct resolved.
Qed.

(** X4. The failures of Provision.  An error of clusterFromParams or of
    clusterNameFromIDAndContext is returned as it is, before any request,
    the second also when the resolved cluster pointer is nil; an error of
    the create request is returned through atlasToAPIError, and that
    request is the only one. *)
Theorem Provision_failures (ctx : RequestContext) (instanceID : string)
    (details : brokerapi.ProvisionDetails.t) (client : Client.t) :
  atlasClientFromContext ctx = Ok client ->
  (forall err,
     clusterFromParams client instanceID
       (brokerapi.ProvisionDetails.ServiceID details)
       (brokerapi.ProvisionDetails.PlanID details)
       (brokerapi.ProvisionDetails.RawParameters details) = Err err ->
     Provision ctx instanceID details true = (Err err, []))
  /\ (forall pointer err,
        clusterFromParams client instanceID
          (brokerapi.ProvisionDetails.ServiceID details)
          (brokerapi.ProvisionDetails.PlanID details)
          (brokerapi.ProvisionDetails.RawParameters details) = Ok pointer ->
        clusterNameFromIDAndContext instanceID
          (brokerapi.ProvisionDetails.RawContext details) = Err err ->
        Provision ctx instanceID details true = (Err err, []))
  /\ (forall resolved clusterName err,
        clusterFromParams client instanceID
          (brokerapi.ProvisionDetails.ServiceID details)
          (brokerapi.ProvisionDetails.PlanID details)
          (brokerapi.ProvisionDetails.RawParameters details)
        = Ok (Some resolved) ->
        clusterNameFromIDAndContext instanceID
          (brokerapi.ProvisionDetails.RawContext details) = Ok clusterName ->
        Client.CreateCluster client
          (Cluster.SetLabel InstanceIDLabel instanceID
             (Cluster.setName clusterName resolved)) = Err err ->
        Provision ctx instanceID details true
        = (Err (atlasToAPIError err),
           [CreateClusterCall
              (Cluster.SetLabel InstanceIDLabel instanceID
                 (Cluster.setName clusterName resolved))])).
Proof.
  intros Hclient. rewrite (Provision_eq _ _ _ _ Hclient).
  split; [|split].
  - now intros err ->.
  - now intros pointer err -> ->.
  - now intros resolved clusterName err -> -> ->.
Qed.

(** X5. What Provision creates, the locator finds.  Every cluster that
    Provision asks the remote side to create carries the instance ID as
    its identity label and so matches the instance ID, under the
    normalized name or under a display name; the locator returns it for
    that instance ID from every list in which no cluster before it
    matches. *)
Theorem Provision_then_locate (ctx : RequestContext) (instanceID : string)
    (details : brokerapi.ProvisionDetails.t) (asyncAllowed : bool)
    (created : Cluster.t) :
  In (CreateClusterCall created)
     (calls (Provision ctx instanceID details asyncAllowed)) ->
  Cluster.GetLabel created InstanceIDLabel = instanceID
  /\ Matches instanceID created
  /\ (brokerapi.ProvisionDetails.RawContext details = "" ->
      Cluster.Name created = NormalizeClusterName instanceID)
  /\ (forall remote before after,
        Client.GetClusters remote = Ok (before ++ created :: after) ->
        Forall (fun c => ~ Matches instanceID c) before ->
        findClusterByInstanceID remote instanceID
        = (Ok created, [ListClusters])).
Proof.
  intros Hin.
  destruct (Provision_created _ _ _ _ _ Hin)
    as (client & cluster & clusterName & _ & _ & _ & Hname & ->).
  assert (Hlabel : Cluster.GetLabel
                     (Cluster.SetLabel InstanceIDLabel instanceID
                        (Cluster.setName clusterName cluster))
                     InstanceIDLabel = instanceID).
  { unfold Cluster.GetLabel, Cluster.SetLabel. simpl.
    now rewrite lookup_insert_eq. }
  split; [exact Hlabel|]. split; [now right|]. split.
  - intros Hcontext. rewrite Hcontext in Hname.
    rewrite clusterNameFromIDAndContext_empty in Hname.
    now injection Hname as <-.
  - intros remote before after Hlist Hbefore.
    rewrite findClusterByInstanceID_eq, Hlist. simpl.
    rewrite scanClusters_first; [reflexivity|exact Hbefore|now right].
Qed.

(** *** Deprovision *)

Lemma Deprovision_eq (ctx : RequestContext) (instanceID : string)
    (details : brokerapi.DeprovisionDetails.t) (client : Client.t) :
  atlasClientFromContext ctx = Ok client ->
  Deprovision ctx instanceID details true
  = match result (findClusterByInstanceID client instanceID) with
    | Ok cluster =>
        (match Client.DeleteCluster client (Cluster.Name cluster) with
         | Some err => Err (atlasToAPIError err)
         | None => Ok (brokerapi.DeprovisionServiceSpec.mk true OperationDeprovision)
         end,
         [ListClusters; DeleteClusterCall (Cluster.Name cluster)])
    | Err err => (Err err, [ListClusters])
    | Panic => (Panic, [ListClusters])
    end.
Proof.
  intros Hclient. unfold Deprovision. rewrite Hclient. simpl.
  rewrite (findClusterByInstanceID_pair client instanceID _ eq_refl).
  destruct (result (findClusterByInstanceID client instanceID)) as [cluster| |];
    simpl; try reflexivity.
  unfold call. now destruct (Client.DeleteCluster client (Cluster.Name cluster)).
Qed.

(** X6. Deprovision, for a context that carries a client.  A cluster that
    the locator finds is deleted by its own name, after the list request;
    when the remote side accepts, the result is async for the operation
    deprovision; when it refuses, its error is returned through
    atlasToAPIError.  When the locator fails, with ErrInstanceDoesNotExist
    for an instance that has no cluster, that error is returned as it is
    and nothing is deleted. *)
Theorem Deprovision_spec (ctx : RequestContext) (instanceID : string)
    (details : brokerapi.DeprovisionDetails.t) (client : Client.t) :
  atlasClientFromContext ctx = Ok client ->
  (forall cluster,
     result (findClusterByInstanceID client instanceID) = Ok cluster ->
     (Client.DeleteCluster client (Cluster.Name cluster) = None ->
      Deprovision ctx instanceID details true
      = (Ok (brokerapi.DeprovisionServiceSpec.mk true "deprovision"),
         [ListClusters; DeleteClusterCall (Cluster.Name cluster)]))
     /\ (forall err,
           Client.DeleteCluster client (Cluster.Name cluster) = Some err ->
           Deprovision ctx instanceID details true
           = (Err (atlasToAPIError err),
              [ListClusters; DeleteClusterCall (Cluster.Name cluster)])))
  /\ (forall err,
        result (findClusterByInstanceID client instanceID) = Err err ->
        Deprovision ctx instanceID details true = (Err err, [ListClusters]))
  /\ (forall clusters,
        Client.GetClusters client = Ok clusters ->
        Forall (fun c => ~ Matches instanceID c) clusters ->
        Deprovision ctx instanceID details true
        = (Err ErrInstanceDoesNotExist, [ListClusters])).
Proof.
  intros Hclient. rewrite (Deprovision_eq _ _ _ _ Hclient).
  split; [|split].
  - intros cluster ->. split; [now intros ->|now intros err ->].
  - now intros err ->.
  - intros clusters Hlist Hnone.
    rewrite findClusterByInstanceID_eq, Hlist. unfold result. simpl.
    apply scanClusters_none in Hnone. now rewrite Hnone.
Qed.

Lemma findClusterByInstanceID_listed (client : Client.t) (instanceID : string)
    (cluster : Cluster.t) :
  result (findClusterByInstanceID client instanceID) = Ok cluster ->
  exists clusters,
    Client.GetClusters client = Ok clusters
    /\ In cluster clusters
    /\ Matches instanceID cluster.
Proof.
  rewrite findClusterByInstanceID_eq. unfold result. simpl.
  destruct (Client.GetClusters client) as [clusters| |]; simpl; try discriminate.
  intros Hscan.
  destruct (scanClusters_Ok _ _ _ Hscan) as (before & after & -> & _ & Hmatch).
  exists (before ++ cluster :: after).
  split; [reflexivity|]. split; [|exact Hmatch].
  apply in_or_app. right. now left.
Qed.

(** X7. Deprovision deletes nothing but a cluster of the instance: every
    name in a delete request that it issues, for every input, is the name
    of a cluster that the remote side listed and that matches the instance
    ID by name or by label. *)
Theorem Deprovision_deletes_match (ctx : RequestContext) (instanceID : string)
    (details : brokerapi.DeprovisionDetails.t) (asyncAllowed : bool)
    (name : string) :
  In (DeleteClusterCall name)
     (calls (Deprovision ctx instanceID details asyncAllowed)) ->
  asyncAllowed = true
  /\ exists client clusters cluster,
       atlasClientFromContext ctx = Ok client
       /\ Client.GetClusters client = Ok clusters
       /\ In cluster clusters
       /\ Matches instanceID cluster
       /\ name = Cluster.Name cluster.
Proof.
  destruct (atlasClientFromContext ctx) as [client| |] eqn:Hclient.
  2,3: unfold Deprovision; rewrite Hclient; intros [].
  destruct asyncAllowed.
  2: unfold Deprovision; rewrite Hclient; intros [].
  rewrite (Deprovision_eq _ _ _ _ Hclient).
  destruct (result (findClusterByInstanceID client instanceID))
    as [cluster| |] eqn:Hfound; unfold calls; simpl.
  - intros [H|[H|[]]]; [discriminate H|]. injection H as <-.
    split; [reflexivity|].
    destruct (findClusterByInstanceID_listed _ _ _ Hfound)
      as (clusters & Hlist & Hin & Hmatch).
    exists client, clusters, cluster. auto.
  - intros [H|[]]. discriminate H.
  - intros [H|[]]. discriminate H.
Qed.

(** *** The requests of the four operations *)

Lemma findClusterByInstanceID_calls (client : Client.t) (instanceID : string) :
  calls (findClusterByInstanceID client instanceID) = [ListClusters].
Proof. now rewrite findClusterByInstanceID_eq. Qed.

(** X8. The requests that an operation issues, for every input:
    LastOperation at most lists the clusters and never creates, updates or
    deletes; Provision issues at most the one create request; Update and
    Deprovision list the clusters first and issue at most one update or
    delete request after that. *)
Theorem operations_requests (ctx : RequestContext) (instanceID : string)
    (poll : brokerapi.PollDetails.t)
    (provision : brokerapi.ProvisionDetails.t)
    (update : brokerapi.UpdateDetails.t)
    (deprovision : brokerapi.DeprovisionDetails.t) (asyncAllowed : bool) :
  (calls (LastOperation ctx instanceID poll) = []
   \/ calls (LastOperation ctx instanceID poll) = [ListClusters])
  /\ (calls (Provision ctx instanceID provision asyncAllowed) = []
      \/ exists created,
           calls (Provision ctx instanceID provision asyncAllowed)
           = [CreateClusterCall created])
  /\ (calls (Update ctx instanceID update asyncAllowed) = []
      \/ calls (Update ctx instanceID update asyncAllowed) = [ListClusters]
      \/ exists outgoing,
           calls (Update ctx instanceID update asyncAllowed)
           = [ListClusters; UpdateClusterCall outgoing])
  /\ (calls (Deprovision ctx instanceID deprovision asyncAllowed) = []
      \/ calls (Deprovision ctx instanceID deprovision asyncAllowed)
         = [ListClusters]
      \/ exists name,
           calls (Deprovision ctx instanceID deprovision asyncAllowed)
           = [ListClusters; DeleteClusterCall name]).
Proof.
  destruct (atlasClientFromContext ctx) as [client| |] eqn:Hclient.
  2,3: unfold LastOperation, Provision, Update, Deprovision; rewrite Hclient;
       simpl; auto.
  split; [|split; [|split]].
  - right. rewrite (LastOperation_eq _ _ _ _ Hclient).
    apply findClusterByInstanceID_calls.
  - destruct asyncAllowed.
    2: unfold Provision; rewrite Hclient; now left.
    rewrite (Provision_eq _ _ _ _ Hclient).
    destruct (clusterFromParams _ _ _ _ _) as [[cluster|]| |];
      try destruct (clusterNameFromIDAndContext _ _) as [clusterName| |];
      unfold calls; simpl; eauto.
  - destruct asyncAllowed.
    2: unfold Update; rewrite Hclient; now left.
    destruct (result (findClusterByInstanceID client instanceID))
      as [existingCluster| |] eqn:Hfound.
    2,3: unfold Update; rewrite Hclient; simpl;
         rewrite (findClusterByInstanceID_pair _ _ _ Hfound); simpl; auto.
    destruct (clusterFromParams client instanceID
                (brokerapi.UpdateDetails.ServiceID update)
                (brokerapi.UpdateDetails.PlanID update)
                (brokerapi.UpdateDetails.RawParameters update))
      as [[resolved|]| |] eqn:Hresolved.
    2,3,4: unfold Update; rewrite Hclient; simpl;
           rewrite (findClusterByInstanceID_pair _ _ _ Hfound); simpl;
           rewrite Hresolved; simpl; auto.
    rewrite (Update_eq _ _ _ _ _ _ Hclient Hfound Hresolved).
    destruct (backfillProvider existingCluster _); unfold calls; simpl; eauto.
  - destruct asyncAllowed.
    2: unfold Deprovision; rewrite Hclient; now left.
    rewrite (Deprovision_eq _ _ _ _ Hclient).
    destruct (result (findClusterByInstanceID client instanceID));
      unfold calls; simpl; eauto.
Qed.

(** *** Update, path by path *)

(** X9. Update, for a context that carries a client.  An error of the
    locator, ErrInstanceDoesNotExist among them, is returned as it is
    after the list request, and so is an error of clusterFromParams; no
    update request is issued then.  When the spec is built, the answer of
    the remote side to the update request decides: its error is returned
    through atlasToAPIError, and its cluster gives an async result for the
    operation update with the dashboard URL of the answered name. *)
Theorem Update_paths (ctx : RequestContext) (instanceID : string)
    (details : brokerapi.UpdateDetails.t) (client : Client.t) :
  atlasClientFromContext ctx = Ok client ->
  (forall err,
     result (findClusterByInstanceID client instanceID) = Err err ->
     Update ctx instanceID details true = (Err err, [ListClusters]))
  /\ (forall existingCluster err,
        result (findClusterByInstanceID client instanceID) = Ok existingCluster ->
        clusterFromParams client instanceID
          (brokerapi.UpdateDetails.ServiceID details)
          (brokerapi.UpdateDetails.PlanID details)
          (brokerapi.UpdateDetails.RawParameters details) = Err err ->
        Update ctx instanceID details true = (Err err, [ListClusters]))
  /\ (forall existingCluster resolved outgoing,
        result (findClusterByInstanceID client instanceID) = Ok existingCluster ->
        clusterFromParams client instanceID
          (brokerapi.UpdateDetails.ServiceID details)
          (brokerapi.UpdateDetails.PlanID details)
          (brokerapi.UpdateDetails.RawParameters details) = Ok (Some resolved) ->
        backfillProvider existingCluster
          (Cluster.setName (Cluster.Name existingCluster) resolved) = Ok outgoing ->
        (forall err,
           Client.UpdateCluster client outgoing = Err err ->
           Update ctx instanceID details true
           = (Err (atlasToAPIError err),
              [ListClusters; UpdateClusterCall outgoing]))
        /\ (forall resultingCluster,
              Client.UpdateCluster client outgoing = Ok resultingCluster ->
              Update ctx instanceID details true
              = (Ok (brokerapi.UpdateServiceSpec.mk true
                       (Client.GetDashboardURL client
                          (Cluster.Name resultingCluster))
                       "update"),
                 [ListClusters; UpdateClusterCall outgoing]))).
Proof.
  intros Hclient. split; [|split].
  - intros err Hfound. unfold Update. rewrite Hclient. simpl.
    now rewrite (findClusterByInstanceID_pair _ _ _ Hfound).
  - intros existingCluster err Hfound Hresolved. unfold Update.
    rewrite Hclient. simpl.
    rewrite (findClusterByInstanceID_pair _ _ _ Hfound). simpl.
    now rewrite Hresolved.
  - intros existingCluster resolved outgoing Hfound Hresolved Hfill.
    rewrite (Update_eq _ _ _ _ _ _ Hclient Hfound Hresolved), Hfill.
    split; [now intros err ->|now intros resultingCluster ->].
Qed.

(** X10. An update with a plan does not read the provider settings of the
    existing cluster.  When the plan ID is not empty, the payload parses
    to a cluster and the catalog gives names that are not empty, Update
    sends the catalog's provider name and instance size name under the
    existing cluster's name, whatever the provider settings of the
    existing cluster are, a nil pointer included. *)
Theorem Update_with_plan (ctx : RequestContext) (instanceID : string)
    (details : brokerapi.UpdateDetails.t) (client : Client.t)
    (existingCluster parsed : Cluster.t) (params : Params.t)
    (provider : Provider.t) (instanceSize : InstanceSize.t) :
  atlasClientFromContext ctx = Ok client ->
  result (findClusterByInstanceID client instanceID) = Ok existingCluster ->
  brokerapi.UpdateDetails.PlanID details <> "" ->
  parseParams (brokerapi.UpdateDetails.RawParameters details) = Ok params ->
  Params.Cluster params = Some parsed ->
  findProviderByServiceID client (brokerapi.UpdateDetails.ServiceID details)
  = Ok provider ->
  findInstanceSizeByPlanID provider (brokerapi.UpdateDetails.PlanID details)
  = Ok instanceSize ->
  Provider.Name provider <> "" ->
  InstanceSize.Name instanceSize <> "" ->
  exists outgoing settings,
    calls (Update ctx instanceID details true)
    = [ListClusters; UpdateClusterCall outgoing]
    /\ Cluster.Name outgoing = Cluster.Name existingCluster
    /\ Cluster.ProviderSettings outgoing = Some settings
    /\ ProviderSettings.ProviderName settings = Provider.Name provider
    /\ ProviderSettings.InstanceSizeName settings = InstanceSize.Name instanceSize.
Proof.
  intros Hclient Hfound Hplan Hparse Hparsed Hprovider Hsize Hpname Hsname.
  assert (Hresolved :
    clusterFromParams client instanceID
      (brokerapi.UpdateDetails.ServiceID details)
      (brokerapi.UpdateDetails.PlanID details)
      (brokerapi.UpdateDetails.RawParameters details)
    = Ok (Some (Cluster.setProviderSettings
                  (Some (ProviderSettings.setInstanceSizeName
                           (InstanceSize.Name instanceSize)
                           (ProviderSettings.setProviderName
                              (Provider.Name provider)
                              (default ProviderSettings.zero
                                 (Cluster.ProviderSettings parsed)))))
                  parsed))).
  { rewrite (clusterFromParams_eq _ _ _ _ _ _ Hparse).
    rewrite (bool_decide_eq_true_2 _ Hplan), Hprovider. simpl.
    rewrite Hsize. simpl. now rewrite Hparsed. }
  rewrite (Update_eq _ _ _ _ _ _ Hclient Hfound Hresolved).
  erewrite backfillProvider_complete;
    [|reflexivity|exact Hpname|exact Hsname].
  unfold calls. simpl. eexists _, _.
  split; [reflexivity|]. repeat split.
Qed.

(** X11. An update without parameters and without a plan sends the empty
    cluster under the existing cluster's name: no provider settings, so
    nothing is taken over from the existing cluster. *)
Theorem Update_without_parameters (ctx : RequestContext) (instanceID : string)
    (serviceID rawContext : string) (client : Client.t)
    (existingCluster : Cluster.t) :
  atlasClientFromContext ctx = Ok client ->
  result (findClusterByInstanceID client instanceID) = Ok existingCluster ->
  calls (Update ctx instanceID
           (brokerapi.UpdateDetails.mk serviceID "" "" rawContext) true)
  = [ListClusters;
     UpdateClusterCall
       (Cluster.setName (Cluster.Name existingCluster) Cluster.zero)].
Proof.
  intros Hclient Hfound.
  rewrite (Update_eq ctx instanceID
             (brokerapi.UpdateDetails.mk serviceID "" "" rawContext)
             client existingCluster Cluster.zero Hclient Hfound eq_refl).
  reflexivity.
Qed.

(** *** The parameter resolver: order of failures and defaults *)

(** X12. clusterFromParams fails in the order of its steps.  An error of
    the payload is returned for every plan ID; with a plan ID an error of
    the catalog, for the service or for the plan, is returned whatever
    the payload parsed to, a nil cluster included.  A payload without
    provider settings gets new ones that hold the two names of the
    catalog and nothing else. *)
Theorem clusterFromParams_order (client : Client.t)
    (instanceID serviceID planID rawParams : string) :
  (forall err,
     parseParams rawParams = Err err ->
     clusterFromParams client instanceID serviceID planID rawParams = Err err)
  /\ (forall params err,
        planID <> "" ->
        parseParams rawParams = Ok params ->
        findProviderByServiceID client serviceID = Err err ->
        clusterFromParams client instanceID serviceID planID rawParams = Err err)
  /\ (forall params provider err,
        planID <> "" ->
        parseParams rawParams = Ok params ->
        findProviderByServiceID client serviceID = Ok provider ->
        findInstanceSizeByPlanID provider planID = Err err ->
        clusterFromParams client instanceID serviceID planID rawParams = Err err)
  /\ (forall params parsed provider instanceSize,
        planID <> "" ->
        parseParams rawParams = Ok params ->
        Params.Cluster params = Some parsed ->
        Cluster.ProviderSettings parsed = None ->
        findProviderByServiceID client serviceID = Ok provider ->
        findInstanceSizeByPlanID provider planID = Ok instanceSize ->
        clusterFromParams client instanceID serviceID planID rawParams
        = Ok (Some (Cluster.setProviderSettings
                      (Some (ProviderSettings.mk (Provider.Name provider)
                               (InstanceSize.Name instanceSize)
                               "" 0 "" false ""))
                      parsed))).
Proof.
  split; [|split; [|split]].
  - intros err Hparse. unfold clusterFromParams. now rewrite Hparse.
  - intros params err Hplan Hparse Hprovider.
    rewrite (clusterFromParams_eq _ _ _ _ _ _ Hparse).
    now rewrite (bool_decide_eq_true_2 _ Hplan), Hprovider.
  - intros params provider err Hplan Hparse Hprovider Hsize.
    rewrite (clusterFromParams_eq _ _ _ _ _ _ Hparse).
    rewrite (bool_decide_eq_true_2 _ Hplan), Hprovider. simpl.
    now rewrite Hsize.
  - intros params parsed provider instanceSize Hplan Hparse Hparsed Hnone
      Hprovider Hsize.
    rewrite (clusterFromParams_eq _ _ _ _ _ _ Hparse).
    rewrite (bool_decide_eq_true_2 _ Hplan), Hprovider. simpl.
    rewrite Hsize. simpl. rewrite Hparsed. simpl. now rewrite Hnone.
Qed.

(** *** The instance locator: collisions and order *)

(** X13. The match by name sees the first 23 bytes of an instance ID
    only: for two instance IDs that agree on them, the cluster at the head
    of the list that is named by the one is returned for the other,
    whatever its label. *)
Theorem findClusterByInstanceID_collision (client : Client.t)
    (instanceID otherID : string) (cluster : Cluster.t)
    (rest : list Cluster.t) :
  take 23 (String.list_ascii_of_string instanceID)
  = take 23 (String.list_ascii_of_string otherID) ->
  Cluster.Name cluster = NormalizeClusterName instanceID ->
  Client.GetClusters client = Ok (cluster :: rest) ->
  findClusterByInstanceID client otherID = (Ok cluster, [ListClusters]).
Proof.
  intros Hprefix Hname Hlist.
  rewrite findClusterByInstanceID_eq, Hlist. simpl.
  assert (Hmatch : Matches otherID cluster).
  { left. rewrite Hname. apply list_ascii_inj.
    now rewrite !NormalizeClusterName_take. }
  apply matchesInstance_Matches in Hmatch. now rewrite Hmatch.
Qed.

(** X14. The cluster that the locator returns is one of the listed
    clusters and matches the instance ID, and it stays the result when
    clusters are listed after the list or clusters that do not match are
    listed before it.  An error of the list request is returned as it
    is. *)
Theorem findClusterByInstanceID_stable (client : Client.t) (instanceID : string) :
  (forall err,
     Client.GetClusters client = Err err ->
     findClusterByInstanceID client instanceID = (Err err, [ListClusters]))
  /\ (forall clusters cluster,
        Client.GetClusters client = Ok clusters ->
        result (findClusterByInstanceID client instanceID) = Ok cluster ->
        In cluster clusters
        /\ Matches instanceID cluster
        /\ (forall remote before after,
              Client.GetClusters remote = Ok (before ++ clusters ++ after) ->
              Forall (fun c => ~ Matches instanceID c) before ->
              result (findClusterByInstanceID remote instanceID) = Ok cluster)).
Proof.
  split.
  - intros err Hlist. now rewrite findClusterByInstanceID_eq, Hlist.
  - intros clusters cluster Hlist Hfound.
    destruct (findClusterByInstanceID_listed _ _ _ Hfound)
      as (listed & Hlisted & Hin & Hmatch).
    assert (listed = clusters) by congruence. subst listed.
    split; [exact Hin|]. split; [exact Hmatch|].
    intros remote before after Hremote Hbefore.
    rewrite findClusterByInstanceID_eq, Hlist in Hfound.
    unfold result in Hfound. simpl in Hfound.
    destruct (scanClusters_Ok _ _ _ Hfound)
      as (front & back & -> & Hfront & _).
    rewrite findClusterByInstanceID_eq, Hremote. unfold result. simpl.
    replace (before ++ (front ++ cluster :: back) ++ after)
      with ((before ++ front) ++ cluster :: (back ++ after))
      by (now rewrite <- !app_assoc).
    apply scanClusters_first; [|exact Hmatch].
    apply Forall_app. split; assumption.
Qed.

(** *** Provision without parameters *)

(** X15. Provision with a plan and with neither parameters nor context
    asks the remote side to create the cluster that has the normalized
    instance ID as its name, the instance ID as its only label, provider
    settings with the two names of the catalog and nothing else, and every
    other field empty. *)
Theorem Provision_without_parameters (ctx : RequestContext)
    (instanceID serviceID planID : string) (client : Client.t)
    (provider : Provider.t) (instanceSize : InstanceSize.t) :
  atlasClientFromContext ctx = Ok client ->
  planID <> "" ->
  findProviderByServiceID client serviceID = Ok provider ->
  findInstanceSizeByPlanID provider planID = Ok instanceSize ->
  calls (Provision ctx instanceID
           (brokerapi.ProvisionDetails.mk serviceID planID "" "") true)
  = [CreateClusterCall
       (Cluster.mk (NormalizeClusterName instanceID) AutoScalingConfig.zero
          false BIConnectorConfig.zero "" 0%float "" "" 0 false 0 []
          (Some (ProviderSettings.mk (Provider.Name provider)
                   (InstanceSize.Name instanceSize) "" 0 "" false ""))
          {[ InstanceIDLabel := instanceID ]} "" "")].
Proof.
  intros Hclient Hplan Hprovider Hsize.
  assert (Hresolved :
    clusterFromParams client instanceID serviceID planID ""
    = Ok (Some (Cluster.setProviderSettings
                  (Some (ProviderSettings.mk (Provider.Name provider)
                           (InstanceSize.Name instanceSize) "" 0 "" false ""))
                  Cluster.zero))).
  { rewrite (clusterFromParams_eq client instanceID serviceID planID ""
               (Params.mk (Some Cluster.zero)) eq_refl).
    rewrite (bool_decide_eq_true_2 _ Hplan), Hprovider. simpl.
    now rewrite Hsize. }
  rewrite (Provision_eq _ _ _ _ Hclient).
  cbn [brokerapi.ProvisionDetails.ServiceID brokerapi.ProvisionDetails.PlanID
       brokerapi.ProvisionDetails.RawParameters
       brokerapi.ProvisionDetails.RawContext].
  rewrite Hresolved, clusterNameFromIDAndContext_empty.
  unfold calls, Cluster.SetLabel. simpl. now rewrite insert_empty.
Qed.

(** *** Provision, then poll *)

(** X16. A poll for the operation provision after Provision.  When the
    remote side lists, at the head of its list, a cluster that kept the
    labels of the cluster that Provision asked it to create, under any
    name, LastOperation finds it after one list request and answers in
    progress while its state is CREATING, succeeded once it is IDLE and
    failed in every other state. *)
Theorem Provision_then_poll (ctx : RequestContext) (instanceID : string)
    (details : brokerapi.ProvisionDetails.t) (asyncAllowed : bool)
    (created : Cluster.t) :
  In (CreateClusterCall created)
     (calls (Provision ctx instanceID details asyncAllowed)) ->
  forall (pollContext : RequestContext) (remote : Client.t)
         (listed : Cluster.t) (rest : list Cluster.t)
         (serviceID planID : string),
    atlasClientFromContext pollContext = Ok remote ->
    Client.GetClusters remote = Ok (listed :: rest) ->
    Cluster.Labels listed = Cluster.Labels created ->
    (Cluster.StateName listed = "CREATING" ->
     LastOperation pollContext instanceID
       (brokerapi.PollDetails.mk serviceID planID "provision")
     = (Ok (brokerapi.LastOperation.mk "in progress" ""), [ListClusters]))
    /\ (Cluster.StateName listed = "IDLE" ->
        LastOperation pollContext instanceID
          (brokerapi.PollDetails.mk serviceID planID "provision")
        = (Ok (brokerapi.LastOperation.mk "succeeded" ""), [ListClusters]))
    /\ (Cluster.StateName listed <> "CREATING" ->
        Cluster.StateName listed <> "IDLE" ->
        LastOperation pollContext instanceID
          (brokerapi.PollDetails.mk serviceID planID "provision")
        = (Ok (brokerapi.LastOperation.mk "failed" ""), [ListClusters])).
Proof.
  intros Hin pollContext remote listed rest serviceID planID Hremote Hlist
    Hlabels.
  destruct (Provision_created _ _ _ _ _ Hin)
    as (client & cluster & clusterName & _ & _ & _ & _ & ->).
  assert (Hmatch : matchesInstance instanceID listed = true).
  { apply matchesInstance_Matches. right.
    unfold Cluster.GetLabel. rewrite Hlabels.
    unfold Cluster.SetLabel. simpl. now rewrite lookup_insert_eq. }
  assert (Hfound : findClusterByInstanceID remote instanceID
                   = (Ok listed, [ListClusters])).
  { rewrite findClusterByInstanceID_eq, Hlist. simpl. now rewrite Hmatch. }
  rewrite (LastOperation_eq _ _ _ _ Hremote), Hfound.
  unfold result, calls. simpl. unfold_states. simpl.
  split; [|split].
  - intros Hstate. rewrite Hstate. reflexivity.
  - intros Hstate. rewrite Hstate. reflexivity.
  - intros Hcreating Hidle.
    now rewrite (bool_decide_eq_false_2 _ Hidle),
      (bool_decide_eq_false_2 _ Hcreating).
Qed.

End Properties.

(** ** Runs of the concrete broker *)

Lemma findClusterByInstanceID_spec_witness :
  Client.GetClusters
    (Example.remote [Example.other; Example.named "orders-db";
                     Example.provisioned None "IDLE"])
  = Ok [Example.other; Example.named "orders-db"; Example.provisioned None "IDLE"]
  /\ Cluster.Name (Example.named "orders-db") <> NormalizeClusterName Example.instanceID
  /\ result (findClusterByInstanceID
               (Example.remote [Example.other; Example.named "orders-db";
                                Example.provisioned None "IDLE"])
               Example.instanceID)
     = Ok (Example.named "orders-db").
Proof.
  split; [reflexivity|]. split; [discriminate|].
  refine (proj1 (proj2 (proj2 (proj2
    (findClusterByInstanceID_spec
       (Example.remote [Example.other; Example.named "orders-db";
                        Example.provisioned None "IDLE"])
       Example.instanceID _ eq_refl))))
    [Example.other] (Example.named "orders-db")
    [Example.provisioned None "IDLE"] eq_refl _ eq_refl).
  constructor; [|constructor].
  unfold Matches. vm_compute. intros [H|H]; discriminate H.
Defined.

Lemma LastOperation_state_machine_witness :
  atlasClientFromContext (Collaborators := Example.collaborators)
    (Some (Example.remote [Example.provisioned None "CREATING"]))
  = Ok (Example.remote [Example.provisioned None "CREATING"])
  /\ result (findClusterByInstanceID
               (Example.remote [Example.provisioned None "CREATING"])
               Example.instanceID)
     = Ok (Example.provisioned None "CREATING")
  /\ result (LastOperation (Collab := Example.collaborators)
               (Some (Example.remote [Example.provisioned None "CREATING"]))
               Example.instanceID
               (brokerapi.PollDetails.mk "" "" "provision"))
     = Ok (brokerapi.LastOperation.mk "in progress" "").
Proof.
  assert (Hfound :
            result (findClusterByInstanceID
                      (Example.remote [Example.provisioned None "CREATING"])
                      Example.instanceID)
            = Ok (Example.provisioned None "CREATING"))
    by (vm_compute; reflexivity).
  split; [reflexivity|]. split; [exact Hfound|].
  exact (proj1 (proj2 (proj2 (LastOperation_state_machine
                                (Collab := Example.collaborators) "provision"))
                 (Some (Example.remote [Example.provisioned None "CREATING"]))
                 _ Example.instanceID "" "" eq_refl)
           _ Hfound).
Defined.

Lemma LastOperation_lookup_errors_witness :
  atlasClientFromContext (Collaborators := Example.collaborators)
    (Some (Example.remote [Example.other]))
  = Ok (Example.remote [Example.other])
  /\ Forall (fun c => ~ Matches Example.instanceID c) [Example.other]
  /\ LastOperation (Collab := Example.collaborators)
       (Some (Example.remote [Example.other])) Example.instanceID
       (brokerapi.PollDetails.mk "" "" "deprovision")
     = (Ok (brokerapi.LastOperation.mk "succeeded" ""), [ListClusters]).
Proof.
  assert (Hnone : Forall (fun c => ~ Matches Example.instanceID c) [Example.other]).
  { constructor; [|constructor].
    unfold Matches. vm_compute. intros [H|H]; discriminate H. }
  split; [reflexivity|]. split; [exact Hnone|].
  exact (proj2 (proj2 (proj2 (LastOperation_lookup_errors
                                (Collab := Example.collaborators)
                                (Some (Example.remote [Example.other]))
                                Example.instanceID
                                (brokerapi.PollDetails.mk "" "" "deprovision"))
                         _ eq_refl))
           [Example.other] eq_refl Hnone eq_refl).
Defined.

(** C6, the claim as it stands, fails: for the operation provision the
    lookup fails with ErrInstanceDoesNotExist and the poll returns no
    error but the state failed. *)
Lemma LastOperation_not_found_provision :
  result (findClusterByInstanceID (Example.remote [Example.other])
            Example.instanceID)
  = Err ErrInstanceDoesNotExist
  /\ "provision" <> "deprovision"
  /\ result (LastOperation (Collab := Example.collaborators)
               (Some (Example.remote [Example.other])) Example.instanceID
               (brokerapi.PollDetails.mk "" "" "provision"))
     = Ok (brokerapi.LastOperation.mk "failed" "")
  /\ ~ (exists err,
          result (LastOperation (Collab := Example.collaborators)
                    (Some (Example.remote [Example.other])) Example.instanceID
                    (brokerapi.PollDetails.mk "" "" "provision"))
          = Err err).
Proof.
  assert (Hpoll :
            result (LastOperation (Collab := Example.collaborators)
                      (Some (Example.remote [Example.other])) Example.instanceID
                      (brokerapi.PollDetails.mk "" "" "provision"))
            = Ok (brokerapi.LastOperation.mk "failed" ""))
    by (vm_compute; reflexivity).
  split; [vm_compute; reflexivity|]. split; [discriminate|].
  split; [exact Hpoll|].
  intros [err Herr]. rewrite Hpoll in Herr. discriminate Herr.
Qed.

Lemma clusterFromParams_plan_witness :
  "M10" <> ""
  /\ exists cluster settings,
       clusterFromParams (Collab := Example.collaborators) (Example.remote [])
         Example.instanceID "aosb-cluster-service-aws" "M10"
         Example.providerParams
       = Ok (Some cluster)
       /\ Cluster.ProviderSettings cluster = Some settings
       /\ ProviderSettings.ProviderName settings = "AWS"
       /\ ProviderSettings.InstanceSizeName settings = "M10".
Proof.
  assert (Hplan : "M10" <> "") by discriminate.
  split; [exact Hplan|].
  destruct (proj2 (clusterFromParams_plan (Collab := Example.collaborators)
                     (Example.remote []) Example.instanceID
                     "aosb-cluster-service-aws" "M10" Example.providerParams
                     Hplan)
              (Example.withSettings
                 (ProviderSettings.mk "GCP" "M30" "" 0 "" false ""))
              _ Example.aws (InstanceSize.mk "M10")
              eq_refl eq_refl eq_refl eq_refl)
    as (cluster & settings & Hreturned & Hsettings & Hname & Hsize & _).
  exists cluster, settings. auto.
Defined.

Lemma clusterFromParams_no_plan_witness :
  0 < String.length Example.regionParams
  /\ clusterFromParams (Collab := Example.collaborators) (Example.remote [])
       Example.instanceID "aosb-cluster-service-aws" "" Example.regionParams
     = Ok (Some (Cluster.setProviderSettings
                   (Some (ProviderSettings.mk "" "" "US_EAST_1" 0 "" false ""))
                   Cluster.zero)).
Proof.
  assert (Hlen : 0 < String.length Example.regionParams) by (vm_compute; lia).
  split; [exact Hlen|].
  exact (proj1 (clusterFromParams_no_plan (Collab := Example.collaborators)
                  (Example.remote []) Example.instanceID
                  "aosb-cluster-service-aws" Example.regionParams)
           _ Hlen eq_refl).
Defined.

Lemma clusterFromParams_null_cluster_witness :
  unmarshalParams (Collaborators := Example.collaborators) nullClusterParams
    (Params.mk (Some Cluster.zero))
  = Ok (Params.mk None)
  /\ clusterFromParams (Collab := Example.collaborators) (Example.remote [])
       Example.instanceID "aosb-cluster-service-aws" "" nullClusterParams
     = Ok None
  /\ Provision (Collab := Example.collaborators) (Some (Example.remote []))
       Example.instanceID
       (brokerapi.ProvisionDetails.mk "aosb-cluster-service-aws" "M10" "{}"
          nullClusterParams)
       true
     = (Panic, []).
Proof.
  pose proof (clusterFromParams_null_cluster (Collab := Example.collaborators)
                (Example.remote []) Example.instanceID
                "aosb-cluster-service-aws" "M10" eq_refl)
    as (Hnil & _ & _ & Hpanic).
  split; [reflexivity|]. split; [exact Hnil|].
  apply (Hpanic (Some (Example.remote [])) "{}" Example.aws (InstanceSize.mk "M10"));
    [discriminate|reflexivity|reflexivity|reflexivity].
Defined.

Lemma Update_outgoing_spec_witness :
  result (findClusterByInstanceID (Example.remote [Example.named "orders-db"])
            Example.instanceID)
  = Ok (Example.named "orders-db")
  /\ exists outgoing sent,
       calls (Update (Collab := Example.collaborators)
                (Some (Example.remote [Example.named "orders-db"]))
                Example.instanceID
                (brokerapi.UpdateDetails.mk "" "" Example.regionParams "")
                true)
       = [ListClusters; UpdateClusterCall outgoing]
       /\ Cluster.Name outgoing = "orders-db"
       /\ Cluster.ProviderSettings outgoing = Some sent
       /\ ProviderSettings.ProviderName sent = "AWS"
       /\ ProviderSettings.InstanceSizeName sent = "M10"
       /\ ProviderSettings.RegionName sent = "US_EAST_1".
Proof.
  assert (Hfound :
            result (findClusterByInstanceID
                      (Example.remote [Example.named "orders-db"])
                      Example.instanceID)
            = Ok (Example.named "orders-db"))
    by (vm_compute; reflexivity).
  split; [exact Hfound|].
  destruct (proj1 (proj2 (Update_outgoing_spec (Collab := Example.collaborators)
                            (Some (Example.remote [Example.named "orders-db"]))
                            Example.instanceID
                            (brokerapi.UpdateDetails.mk "" ""
                               Example.regionParams ""))
                     _ (Example.named "orders-db")
                     (Cluster.setProviderSettings
                        (Some (ProviderSettings.mk "" "" "US_EAST_1" 0 ""
                                 false ""))
                        Cluster.zero)
                     eq_refl Hfound eq_refl)
              _ _ eq_refl eq_refl)
    as (outgoing & sent & Hcalls & Hname & Hsent & _ & _ & _ & _ & _ & _ & Haws).
  destruct (Haws eq_refl eq_refl eq_refl eq_refl) as (Hprovider & Hsize & Hregion).
  exists outgoing, sent. auto 10.
Defined.

Lemma Update_nil_provider_panics_witness :
  result (findClusterByInstanceID
            (Example.remote [Example.provisioned None "IDLE"])
            Example.instanceID)
  = Ok (Example.provisioned None "IDLE")
  /\ Update (Collab := Example.collaborators)
       (Some (Example.remote [Example.provisioned None "IDLE"]))
       Example.instanceID
       (brokerapi.UpdateDetails.mk "" "" Example.regionParams "")
       true
     = (Panic, [ListClusters]).
Proof.
  assert (Hfound :
            result (findClusterByInstanceID
                      (Example.remote [Example.provisioned None "IDLE"])
                      Example.instanceID)
            = Ok (Example.provisioned None "IDLE"))
    by (vm_compute; reflexivity).
  split; [exact Hfound|].
  apply (Update_nil_provider_panics (Collab := Example.collaborators)
           (Some (Example.remote [Example.provisioned None "IDLE"]))
           Example.instanceID
           (brokerapi.UpdateDetails.mk "" "" Example.regionParams "")
           (Example.remote [Example.provisioned None "IDLE"])
           (Example.provisioned None "IDLE")
           (Cluster.setProviderSettings
              (Some (ProviderSettings.mk "" "" "US_EAST_1" 0 "" false ""))
              Cluster.zero)
           (ProviderSettings.mk "" "" "US_EAST_1" 0 "" false ""));
    [reflexivity|exact Hfound|reflexivity|reflexivity|reflexivity|now left].
Defined.

Lemma async_required_witness :
  atlasClientFromContext (Collaborators := Example.collaborators)
    (Some (Example.remote []))
  = Ok (Example.remote [])
  /\ Provision (Collab := Example.collaborators) (Some (Example.remote []))
       Example.instanceID
       (brokerapi.ProvisionDetails.mk "aosb-cluster-service-aws" "M10" "{}" "{}")
       false
     = (Err ErrAsyncRequired, [])
  /\ Update (Collab := Example.collaborators) (Some (Example.remote []))
       Example.instanceID
       (brokerapi.UpdateDetails.mk "aosb-cluster-service-aws" "M20" "{}" "{}")
       false
     = (Err ErrAsyncRequired, [])
  /\ Deprovision (Collab := Example.collaborators) (Some (Example.remote []))
       Example.instanceID
       (brokerapi.DeprovisionDetails.mk "M10" "aosb-cluster-service-aws" false)
       false
     = (Err ErrAsyncRequired, []).
Proof.
  split; [reflexivity|].
  exact (proj2 (async_required (Collab := Example.collaborators)
                  (Some (Example.remote [])) Example.instanceID
                  (brokerapi.ProvisionDetails.mk "aosb-cluster-service-aws" "M10"
                     "{}" "{}")
                  (brokerapi.UpdateDetails.mk "aosb-cluster-service-aws" "M20"
                     "{}" "{}")
                  (brokerapi.DeprovisionDetails.mk "M10"
                     "aosb-cluster-service-aws" false))
           (Example.remote []) eq_refl).
Defined.

(** *** Runs for the further properties *)

Lemma clusterNameFromIDAndContext_spec_witness :
  0 < String.length Display.namedContext
  /\ 23 < String.length Display.displayName
  /\ clusterNameFromIDAndContext (Collab := Display.collaborators)
       Example.instanceID Display.namedContext
     = Ok Display.displayName.
Proof.
  assert (Hlen : 0 < String.length Display.namedContext) by (vm_compute; lia).
  split; [exact Hlen|]. split; [vm_compute; lia|].
  refine (proj1 (proj1 (proj2 (proj2
            (clusterNameFromIDAndContext_spec (Collab := Display.collaborators)
               Example.instanceID Display.namedContext)))
            (ContextParams.mk Display.displayName) Hlen eq_refl) _).
  discriminate.
Defined.

Lemma Provision_accepted_witness :
  exists created,
    Provision (Collab := Display.collaborators) (Some (Example.remote []))
      Example.instanceID
      (brokerapi.ProvisionDetails.mk "aosb-cluster-service-aws" "M10"
         Display.namedContext Example.regionParams)
      true
    = (Ok (brokerapi.ProvisionedServiceSpec.mk true
             ("https://cloud.mongodb.com/" +:+ Display.displayName)
             "provision"),
       [CreateClusterCall created])
    /\ Cluster.Name created = Display.displayName
    /\ Cluster.GetLabel created InstanceIDLabel = Example.instanceID.
Proof.
  destruct (Provision_accepted (Collab := Display.collaborators)
              (Some (Example.remote [])) Example.instanceID
              (brokerapi.ProvisionDetails.mk "aosb-cluster-service-aws" "M10"
                 Display.namedContext Example.regionParams)
              (Example.remote [])
              (Cluster.setProviderSettings
                 (Some (ProviderSettings.mk "AWS" "M10" "US_EAST_1" 0 "" false ""))
                 Cluster.zero)
              _ Display.displayName eq_refl eq_refl eq_refl eq_refl)
    as (created & Hrun & Hname & Hlabel & _).
  exists created. auto.
Defined.

Lemma Provision_failures_witness :
  Provision (Collab := Display.collaborators) (Some (Display.readOnly []))
    Example.instanceID
    (brokerapi.ProvisionDetails.mk "aosb-cluster-service-aws" "M10" "" "")
    true
  = (Err (ErrOther "Atlas API error"),
     [CreateClusterCall
        (Cluster.SetLabel InstanceIDLabel Example.instanceID
           (Cluster.setName "2a5d9a9e-0c3b-4d2e-9f6a"
              (Cluster.setProviderSettings
                 (Some (ProviderSettings.mk "AWS" "M10" "" 0 "" false ""))
                 Cluster.zero)))]).
Proof.
  exact (proj2 (proj2 (Provision_failures (Collab := Display.collaborators)
                         (Some (Display.readOnly [])) Example.instanceID
                         (brokerapi.ProvisionDetails.mk
                            "aosb-cluster-service-aws" "M10" "" "")
                         (Display.readOnly []) eq_refl))
           (Cluster.setProviderSettings
              (Some (ProviderSettings.mk "AWS" "M10" "" 0 "" false ""))
              Cluster.zero)
           "2a5d9a9e-0c3b-4d2e-9f6a" (ErrOther "403 Forbidden")
           eq_refl eq_refl eq_refl).
Defined.

Lemma Provision_then_locate_witness :
  In (CreateClusterCall
        (Cluster.SetLabel InstanceIDLabel Example.instanceID
           (Cluster.setName Display.displayName
              (Cluster.setProviderSettings
                 (Some (ProviderSettings.mk "AWS" "M10" "" 0 "" false ""))
                 Cluster.zero))))
     (calls (Provision (Collab := Display.collaborators)
               (Some (Example.remote [])) Example.instanceID
               (brokerapi.ProvisionDetails.mk "aosb-cluster-service-aws" "M10"
                  Display.namedContext "")
               true))
  /\ findClusterByInstanceID
       (Example.remote
          [Example.other;
           Cluster.SetLabel InstanceIDLabel Example.instanceID
             (Cluster.setName Display.displayName
                (Cluster.setProviderSettings
                   (Some (ProviderSettings.mk "AWS" "M10" "" 0 "" false ""))
                   Cluster.zero))])
       Example.instanceID
     = (Ok (Cluster.SetLabel InstanceIDLabel Example.instanceID
              (Cluster.setName Display.displayName
                 (Cluster.setProviderSettings
                    (Some (ProviderSettings.mk "AWS" "M10" "" 0 "" false ""))
                    Cluster.zero))),
        [ListClusters]).
Proof.
  assert (Hin :
    In (CreateClusterCall
          (Cluster.SetLabel InstanceIDLabel Example.instanceID
             (Cluster.setName Display.displayName
                (Cluster.setProviderSettings
                   (Some (ProviderSettings.mk "AWS" "M10" "" 0 "" false ""))
                   Cluster.zero))))
       (calls (Provision (Collab := Display.collaborators)
                 (Some (Example.remote [])) Example.instanceID
                 (brokerapi.ProvisionDetails.mk "aosb-cluster-service-aws"
                    "M10" Display.namedContext "")
                 true))).
  { left. reflexivity. }
  split; [exact Hin|].
  refine (proj2 (proj2 (proj2 (Provision_then_locate
                                 (Collab := Display.collaborators)
                                 _ _ _ _ _ Hin)))
            (Example.remote _) [Example.other] [] eq_refl _).
  constructor; [|constructor].
  unfold Matches. vm_compute. intros [H|H]; discriminate H.
Defined.

Lemma Deprovision_spec_witness :
  result (findClusterByInstanceID (Example.remote [Example.named "orders-db"])
            Example.instanceID)
  = Ok (Example.named "orders-db")
  /\ Deprovision (Collab := Example.collaborators)
       (Some (Example.remote [Example.named "orders-db"])) Example.instanceID
       (brokerapi.DeprovisionDetails.mk "M10" "aosb-cluster-service-aws" false)
       true
     = (Ok (brokerapi.DeprovisionServiceSpec.mk true "deprovision"),
        [ListClusters; DeleteClusterCall "orders-db"]).
Proof.
  assert (Hfound :
            result (findClusterByInstanceID
                      (Example.remote [Example.named "orders-db"])
                      Example.instanceID)
            = Ok (Example.named "orders-db"))
    by (vm_compute; reflexivity).
  split; [exact Hfound|].
  exact (proj1 (proj1 (Deprovision_spec (Collab := Example.collaborators)
                         (Some (Example.remote [Example.named "orders-db"]))
                         Example.instanceID
                         (brokerapi.DeprovisionDetails.mk "M10"
                            "aosb-cluster-service-aws" false)
                         _ eq_refl)
                  _ Hfound) eq_refl).
Defined.

Lemma Deprovision_deletes_match_witness :
  In (DeleteClusterCall "orders-db")
     (calls (Deprovision (Collab := Example.collaborators)
               (Some (Example.remote [Example.other; Example.named "orders-db"]))
               Example.instanceID
               (brokerapi.DeprovisionDetails.mk "M10" "aosb-cluster-service-aws"
                  false)
               true))
  /\ exists cluster,
       In cluster [Example.other; Example.named "orders-db"]
       /\ Matches Example.instanceID cluster
       /\ "orders-db" = Cluster.Name cluster.
Proof.
  assert (Hin :
    In (DeleteClusterCall "orders-db")
       (calls (Deprovision (Collab := Example.collaborators)
                 (Some (Example.remote
                          [Example.other; Example.named "orders-db"]))
                 Example.instanceID
                 (brokerapi.DeprovisionDetails.mk "M10"
                    "aosb-cluster-service-aws" false)
                 true))).
  { vm_compute. right. left. reflexivity. }
  split; [exact Hin|].
  destruct (Deprovision_deletes_match (Collab := Example.collaborators)
              _ _ _ _ _ Hin)
    as (_ & client & clusters & cluster & Hclient & Hlist & Hlisted & Hmatch
        & Hname).
  injection Hclient as <-. injection Hlist as <-.
  exists cluster. auto.
Defined.

Lemma Update_paths_witness :
  result (findClusterByInstanceID (Display.readOnly [Example.named "orders-db"])
            Example.instanceID)
  = Ok (Example.named "orders-db")
  /\ Update (Collab := Display.collaborators)
       (Some (Display.readOnly [Example.named "orders-db"])) Example.instanceID
       (brokerapi.UpdateDetails.mk "" "" "" "") true
     = (Err (ErrOther "Atlas API error"),
        [ListClusters; UpdateClusterCall (Cluster.setName "orders-db" Cluster.zero)]).
Proof.
  assert (Hfound :
            result (findClusterByInstanceID
                      (Display.readOnly [Example.named "orders-db"])
                      Example.instanceID)
            = Ok (Example.named "orders-db"))
    by (vm_compute; reflexivity).
  split; [exact Hfound|].
  exact (proj1 (proj2 (proj2 (Update_paths (Collab := Display.collaborators)
                                (Some (Display.readOnly
                                         [Example.named "orders-db"]))
                                Example.instanceID
                                (brokerapi.UpdateDetails.mk "" "" "" "")
                                _ eq_refl))
                  (Example.named "orders-db") Cluster.zero
                  (Cluster.setName "orders-db" Cluster.zero)
                  Hfound eq_refl eq_refl)
           (ErrOther "403 Forbidden") eq_refl).
Defined.

Lemma Update_with_plan_witness :
  result (findClusterByInstanceID
            (Example.remote [Example.provisioned None "IDLE"])
            Example.instanceID)
  = Ok (Example.provisioned None "IDLE")
  /\ Cluster.ProviderSettings (Example.provisioned None "IDLE") = None
  /\ exists outgoing settings,
       calls (Update (Collab := Example.collaborators)
                (Some (Example.remote [Example.provisioned None "IDLE"]))
                Example.instanceID
                (brokerapi.UpdateDetails.mk "aosb-cluster-service-aws" "M20"
                   "{}" "")
                true)
       = [ListClusters; UpdateClusterCall outgoing]
       /\ Cluster.ProviderSettings outgoing = Some settings
       /\ ProviderSettings.ProviderName settings = "AWS"
       /\ ProviderSettings.InstanceSizeName settings = "M20".
Proof.
  assert (Hfound :
            result (findClusterByInstanceID
                      (Example.remote [Example.provisioned None "IDLE"])
                      Example.instanceID)
            = Ok (Example.provisioned None "IDLE"))
    by (vm_compute; reflexivity).
  split; [exact Hfound|]. split; [reflexivity|].
  destruct (Update_with_plan (Collab := Example.collaborators)
              (Some (Example.remote [Example.provisioned None "IDLE"]))
              Example.instanceID
              (brokerapi.UpdateDetails.mk "aosb-cluster-service-aws" "M20"
                 "{}" "")
              _ (Example.provisioned None "IDLE") Cluster.zero
              (Params.mk (Some Cluster.zero)) Example.aws (InstanceSize.mk "M20")
              eq_refl Hfound)
    as (outgoing & settings & Hcalls & _ & Hsettings & Hname & Hsize);
    try reflexivity; try discriminate.
  exists outgoing, settings. auto.
Defined.

Lemma Update_without_parameters_witness :
  result (findClusterByInstanceID (Example.remote [Example.named "orders-db"])
            Example.instanceID)
  = Ok (Example.named "orders-db")
  /\ calls (Update (Collab := Example.collaborators)
              (Some (Example.remote [Example.named "orders-db"]))
              Example.instanceID
              (brokerapi.UpdateDetails.mk "aosb-cluster-service-aws" "" "" "")
              true)
     = [ListClusters; UpdateClusterCall (Cluster.setName "orders-db" Cluster.zero)].
Proof.
  assert (Hfound :
            result (findClusterByInstanceID
                      (Example.remote [Example.named "orders-db"])
                      Example.instanceID)
            = Ok (Example.named "orders-db"))
    by (vm_compute; reflexivity).
  split; [exact Hfound|].
  exact (Update_without_parameters (Collab := Example.collaborators)
           (Some (Example.remote [Example.named "orders-db"]))
           Example.instanceID "aosb-cluster-service-aws" ""
           _ (Example.named "orders-db") eq_refl Hfound).
Defined.

Lemma clusterFromParams_order_witness :
  parseParams (Collab := Example.collaborators) nullClusterParams
  = Ok (Params.mk None)
  /\ clusterFromParams (Collab := Example.collaborators) (Example.remote [])
       Example.instanceID "no-such-service" "M10" nullClusterParams
     = Err (ErrOther "invalid service ID").
Proof.
  split; [reflexivity|].
  refine (proj1 (proj2 (clusterFromParams_order (Collab := Example.collaborators)
                          (Example.remote []) Example.instanceID
                          "no-such-service" "M10" nullClusterParams))
            (Params.mk None) _ _ eq_refl eq_refl).
  discriminate.
Defined.

Lemma findClusterByInstanceID_collision_witness :
  Example.instanceID <> "2a5d9a9e-0c3b-4d2e-9f6a-000000000000"
  /\ Cluster.GetLabel (Example.provisioned None "IDLE") InstanceIDLabel
     <> "2a5d9a9e-0c3b-4d2e-9f6a-000000000000"
  /\ findClusterByInstanceID
       (Example.remote [Example.provisioned None "IDLE"])
       "2a5d9a9e-0c3b-4d2e-9f6a-000000000000"
     = (Ok (Example.provisioned None "IDLE"), [ListClusters]).
Proof.
  split; [discriminate|]. split; [vm_compute; discriminate|].
  exact (findClusterByInstanceID_collision
           (Example.remote [Example.provisioned None "IDLE"])
           Example.instanceID "2a5d9a9e-0c3b-4d2e-9f6a-000000000000"
           (Example.provisioned None "IDLE") [] eq_refl eq_refl eq_refl).
Defined.

Lemma findClusterByInstanceID_stable_witness :
  result (findClusterByInstanceID (Example.remote [Example.named "orders-db"])
            Example.instanceID)
  = Ok (Example.named "orders-db")
  /\ result (findClusterByInstanceID
               (Example.remote
                  [Example.other; Example.named "orders-db";
                   Example.provisioned None "IDLE"])
               Example.instanceID)
     = Ok (Example.named "orders-db").
Proof.
  assert (Hfound :
            result (findClusterByInstanceID
                      (Example.remote [Example.named "orders-db"])
                      Example.instanceID)
            = Ok (Example.named "orders-db"))
    by (vm_compute; reflexivity).
  split; [exact Hfound|].
  refine (proj2 (proj2 (proj2 (findClusterByInstanceID_stable
                                 (Example.remote [Example.named "orders-db"])
                                 Example.instanceID)
                          _ _ eq_refl Hfound))
            (Example.remote _) [Example.other]
            [Example.provisioned None "IDLE"] eq_refl _).
  constructor; [|constructor].
  unfold Matches. vm_compute. intros [H|H]; discriminate H.
Defined.

Lemma Provision_without_parameters_witness :
  calls (Provision (Collab := Example.collaborators) (Some (Example.remote []))
           Example.instanceID
           (brokerapi.ProvisionDetails.mk "aosb-cluster-service-aws" "M10" "" "")
           true)
  = [CreateClusterCall
       (Example.provisioned
          (Some (ProviderSettings.mk "AWS" "M10" "" 0 "" false "")) "")].
Proof.
  refine (Provision_without_parameters (Collab := Example.collaborators)
            (Some (Example.remote [])) Example.instanceID
            "aosb-cluster-service-aws" "M10" (Example.remote [])
            Example.aws (InstanceSize.mk "M10") eq_refl _ eq_refl eq_refl).
  discriminate.
Defined.

Lemma Provision_then_poll_witness :
  In (CreateClusterCall
        (Example.provisioned
           (Some (ProviderSettings.mk "AWS" "M10" "" 0 "" false "")) ""))
     (calls (Provision (Collab := Example.collaborators)
               (Some (Example.remote [])) Example.instanceID
               (brokerapi.ProvisionDetails.mk "aosb-cluster-service-aws" "M10"
                  "" "")
               true))
  /\ LastOperation (Collab := Example.collaborators)
       (Some (Example.remote
                [Example.provisioned
                   (Some (ProviderSettings.mk "AWS" "M10" "" 0 "" false ""))
                   "CREATING"]))
       Example.instanceID
       (brokerapi.PollDetails.mk "aosb-cluster-service-aws" "M10" "provision")
     = (Ok (brokerapi.LastOperation.mk "in progress" ""), [ListClusters]).
Proof.
  assert (Hin :
    In (CreateClusterCall
          (Example.provisioned
             (Some (ProviderSettings.mk "AWS" "M10" "" 0 "" false "")) ""))
       (calls (Provision (Collab := Example.collaborators)
                 (Some (Example.remote [])) Example.instanceID
                 (brokerapi.ProvisionDetails.mk "aosb-cluster-service-aws"
                    "M10" "" "")
                 true))).
  { vm_compute. left. reflexivity. }
  split; [exact Hin|].
  exact (proj1 (Provision_then_poll (Collab := Example.collaborators)
                  _ _ _ _ _ Hin
                  (Some (Example.remote
                           [Example.provisioned
                              (Some (ProviderSettings.mk "AWS" "M10" "" 0 ""
                                       false ""))
                              "CREATING"]))
                  _ _ [] "aosb-cluster-service-aws" "M10"
                  eq_refl eq_refl eq_refl)
           eq_refl).
Defined.
